(** * RayTracing: the [Ray] engine and the [MultiAxisGalvanometer] trace

    A shallow embedding of [Ray.py] and [MutiAxisParam.py].

    Numeric model.  A numpy [float64] is modelled by [float]: an exact real
    number, one of the two infinities, or NaN.  The operations follow the
    IEEE-754 rules for the special values (0/0 is NaN, x/0 is an infinity,
    every comparison with NaN is false, ...), which is what numpy does: a
    division by a zero norm does not raise, it produces NaN and at most a
    warning.  Rounding, overflow and the sign of zero are abstracted: on
    finite values the operations are the exact real ones.

    The statements proved are of two kinds.  Most are about what does not
    depend on that abstraction: the control flow, the special values, and
    operations that float64 performs exactly (a product by 1, 0 or -1, a sum
    with 0, a difference of equal numbers).  The others evaluate one
    concrete trace, in exact arithmetic. *)

From Stdlib Require Import Reals Lra Bool List.
Import ListNotations.

Local Open Scope R_scope.

(** ** Floating-point values *)

Inductive float : Type :=
| Fin (r : R)
| Inf (neg : bool)
| NaN.

Definition rlt (a b : R) : bool := if Rlt_dec a b then true else false.
Definition rle (a b : R) : bool := if Rle_dec a b then true else false.
Definition rzero (a : R) : bool := if Req_EM_T a 0 then true else false.

Definition fopp (a : float) : float :=
  match a with
  | Fin x => Fin (- x)
  | Inf s => Inf (negb s)
  | NaN => NaN
  end.

Definition fadd (a b : float) : float :=
  match a, b with
  | Fin x, Fin y => Fin (x + y)
  | Fin _, Inf s => Inf s
  | Inf s, Fin _ => Inf s
  | Inf s, Inf t => if Bool.eqb s t then Inf s else NaN
  | _, _ => NaN
  end.

Definition fsub (a b : float) : float := fadd a (fopp b).

Definition fmul (a b : float) : float :=
  match a, b with
  | Fin x, Fin y => Fin (x * y)
  | Fin x, Inf s => if rzero x then NaN else Inf (xorb s (rlt x 0))
  | Inf s, Fin y => if rzero y then NaN else Inf (xorb s (rlt y 0))
  | Inf s, Inf t => Inf (xorb s t)
  | _, _ => NaN
  end.

Definition fdiv (a b : float) : float :=
  match a, b with
  | Fin x, Fin y =>
      if rzero y then (if rzero x then NaN else Inf (rlt x 0))
      else Fin (x / y)
  | Fin _, Inf _ => Fin 0
  | Inf s, Fin y => Inf (xorb s (rlt y 0))
  | _, _ => NaN
  end.

Definition fsqrt (a : float) : float :=
  match a with
  | Fin x => if rlt x 0 then NaN else Fin (sqrt x)
  | Inf false => Inf false
  | _ => NaN
  end.

Definition fabs (a : float) : float :=
  match a with
  | Fin x => Fin (Rabs x)
  | Inf _ => Inf false
  | NaN => NaN
  end.

Definition fcos (a : float) : float :=
  match a with Fin x => Fin (cos x) | _ => NaN end.

Definition fsin (a : float) : float :=
  match a with Fin x => Fin (sin x) | _ => NaN end.

(** [np.arccos]: NaN outside [-1, 1]. *)
Definition facos (a : float) : float :=
  match a with
  | Fin x => if rlt x (-1) || rlt 1 x then NaN else Fin (acos x)
  | _ => NaN
  end.

(** [a < b] *)
Definition flt (a b : float) : bool :=
  match a, b with
  | Fin x, Fin y => rlt x y
  | Fin _, Inf s => negb s
  | Inf s, Fin _ => s
  | Inf s, Inf t => s && negb t
  | _, _ => false
  end.

(** [a >= b] *)
Definition fge (a b : float) : bool :=
  match a, b with
  | Fin x, Fin y => rle y x
  | Fin _, Inf s => s
  | Inf s, Fin _ => negb s
  | Inf s, Inf t => negb s || t
  | _, _ => false
  end.

(** [np.pi] *)
Definition pi : float := Fin PI.

(** ** Three-component arrays *)

Record vec : Type := Vec { vx : float; vy : float; vz : float }.

(** [a + b], [a - b] on arrays *)
Definition vadd (a b : vec) : vec :=
  Vec (fadd (vx a) (vx b)) (fadd (vy a) (vy b)) (fadd (vz a) (vz b)).
Definition vsub (a b : vec) : vec :=
  Vec (fsub (vx a) (vx b)) (fsub (vy a) (vy b)) (fsub (vz a) (vz b)).
(** [s * a] and [a * s], scalar with array *)
Definition smul (s : float) (a : vec) : vec :=
  Vec (fmul s (vx a)) (fmul s (vy a)) (fmul s (vz a)).
Definition vmul (a : vec) (s : float) : vec :=
  Vec (fmul (vx a) s) (fmul (vy a) s) (fmul (vz a) s).
(** [a / s] *)
Definition vdiv (a : vec) (s : float) : vec :=
  Vec (fdiv (vx a) s) (fdiv (vy a) s) (fdiv (vz a) s).
(** [np.dot], [np.cross], [np.linalg.norm] *)
Definition dot (a b : vec) : float :=
  fadd (fadd (fmul (vx a) (vx b)) (fmul (vy a) (vy b))) (fmul (vz a) (vz b)).
Definition cross (a b : vec) : vec :=
  Vec (fsub (fmul (vy a) (vz b)) (fmul (vz a) (vy b)))
      (fsub (fmul (vz a) (vx b)) (fmul (vx a) (vz b)))
      (fsub (fmul (vx a) (vy b)) (fmul (vy a) (vx b))).
Definition norm (a : vec) : float := fsqrt (dot a a).

(** Arrays of finite numbers: a triple of reals seen as an array. *)
Record R3 : Type := V3 { rx : R; ry : R; rz : R }.

Definition fin3 (a : R3) : vec := Vec (Fin (rx a)) (Fin (ry a)) (Fin (rz a)).

(** A three-element list of numeric literals. *)
Definition lit (x y z : R) : vec := fin3 (V3 x y z).

(** ** Python outcomes

    A call returns or raises.  On numeric arguments the only exception this
    code can raise is the [AttributeError] of a galvanometer method called
    while [self.ray] is still [None]: numpy signals a zero divisor by a
    warning and a NaN or infinite result, not by an exception. *)
Inductive exn : Type := AttributeError.

Inductive outcome (A : Type) : Type :=
| Returned (a : A)
| Raised (e : exn).
Arguments Returned {A} a.
Arguments Raised {A} e.

(** ** Ray.py

    A method that mutates the ray returns the ray after the call.  The
    [print] calls of [move] and [reflection] only write to standard output
    and are left out. *)

Definition rotate_vector_around_axis (vec0 axis0 : vec) (theta : float) : vec :=
  let vec := vdiv vec0 (norm vec0) in
  let axis := vdiv axis0 (norm axis0) in
  vadd (vadd (vmul vec (fcos theta)) (vmul (cross axis vec) (fsin theta)))
       (vmul (vmul axis (dot axis vec)) (fsub (Fin 1) (fcos theta))).

Record Ray : Type := mkRay { position : vec; direction : vec }.

Module Ray.

(** The constructor has no check of its own and numpy's division raises
    nothing: it always returns. *)
Definition __init__ (position direction : vec) : outcome Ray :=
  Returned (mkRay position (vdiv direction (norm direction))).

Definition point_at_parameter (self : Ray) (t : float) : vec :=
  vadd (position self) (smul t (direction self)).

Definition move (self : Ray) (L : float) : Ray :=
  mkRay (vadd (position self) (smul L (direction self))) (direction self).

Definition reflection (self : Ray) (n0 : vec) : Ray :=
  let n := vdiv n0 (norm n0) in
  mkRay (position self)
        (vsub (direction self)
              (smul (fmul (Fin 2) (dot (direction self) n)) n)).

(** The local [parallel_direction_vector] of [refraction]. *)
Definition parallel_direction_vector (self : Ray) (n0 : vec) : vec :=
  let n := vdiv n0 (norm n0) in
  let cos_theta := fopp (dot (direction self) n) in
  vadd (direction self) (smul cos_theta n).

(** [k] is a number whose square is representable, as the -1 that the
    galvanometer passes: beyond about 1.3e154 the [k ** 2] of a Python float
    raises [OverflowError], which is not modelled. *)
Definition refraction (self : Ray) (k : float) (n0 : vec) : Ray :=
  let n := vdiv n0 (norm n0) in
  let cos_theta := fopp (dot (direction self) n) in
  let acos_theta :=
    if fge (fabs cos_theta) (Fin 1) then Fin 0 else facos cos_theta in
  let root :=
    fsqrt (fadd (Fin 1) (fmul (fmul k k) (fmul acos_theta acos_theta))) in
  let term1 := fdiv (fmul k acos_theta) root in
  let vertical_direction :=
    smul (fmul (Fin (-1)) (fdiv (Fin 1) root)) n in
  let parallel_direction_vector := vadd (direction self) (smul cos_theta n) in
  let parallel_direction :=
    smul term1
         (vdiv parallel_direction_vector (norm parallel_direction_vector)) in
  let direction1 := vadd vertical_direction parallel_direction in
  mkRay (position self) (vdiv direction1 (norm direction1)).

(** Returns the intersection point ([None] when there is none) and the
    ray after the call. *)
Definition interaction (self : Ray) (n0 P : vec) : option vec * Ray :=
  let n := vdiv n0 (norm n0) in
  let denominator := dot (direction self) n in
  if flt (fabs denominator) (Fin (1 / 10000000000)) then (None, self)
  else
    let t := fdiv (dot (vsub P (position self)) n) denominator in
    if flt t (Fin 0) then (None, self)
    else
      let p := point_at_parameter self t in
      (Some p, mkRay p (direction self)).

Definition scan (self : Ray) (Px1 Px2 nx0 ny0 nx_rotation0 ny_rotation0 : vec)
           (x_angle y_angle : float) : Ray :=
  let nx := vdiv nx0 (norm nx0) in
  let ny := vdiv ny0 (norm ny0) in
  let nx_rotation := vdiv nx_rotation0 (norm nx_rotation0) in
  let ny_rotation := vdiv ny_rotation0 (norm ny_rotation0) in
  let x_angle_pi := fdiv (fmul x_angle pi) (Fin 180) in
  let y_angle_pi := fdiv (fmul y_angle pi) (Fin 180) in
  let nx_after := rotate_vector_around_axis nx nx_rotation x_angle_pi in
  let ny_after := rotate_vector_around_axis ny ny_rotation y_angle_pi in
  let self1 := snd (interaction self nx_after Px1) in
  let self2 := reflection self1 nx_after in
  let self3 := snd (interaction self2 ny_after Px2) in
  reflection self3 ny_after.

End Ray.

(** The locals [denominator] and [t] of [interaction]. *)
Definition interaction_denominator (self : Ray) (n0 : vec) : float :=
  dot (direction self) (vdiv n0 (norm n0)).

Definition interaction_t (self : Ray) (n0 P : vec) : float :=
  fdiv (dot (vsub P (position self)) (vdiv n0 (norm n0)))
       (interaction_denominator self n0).

(** ** MutiAxisParam.py *)

Record MultiAxisGalvanometer : Type := mkGalvo {
  focus_distance : float;
  galvo_gap : float;
  ray : option Ray
}.

Module MultiAxisGalvanometer.

(** A method body: it reads and updates the object (the bound ray is
    mutated in place) and returns a value or raises. *)
Definition method (A : Type) : Type :=
  MultiAxisGalvanometer -> outcome (A * MultiAxisGalvanometer).

Definition ret {A} (a : A) : method A := fun self => Returned (a, self).

Definition bind {A B} (m : method A) (f : A -> method B) : method B :=
  fun self =>
    match m self with
    | Returned (a, self') => f a self'
    | Raised e => Raised e
    end.

Notation "x <- m ;; f" := (bind m (fun x => f))
  (at level 61, m at next level, right associativity).
Notation "m ;; f" := (bind m (fun _ => f))
  (at level 61, right associativity).

(** [self.ray.f(...)] *)
Definition on_ray {A} (f : Ray -> A * Ray) : method A :=
  fun self =>
    match ray self with
    | None => Raised AttributeError
    | Some r =>
        let (a, r') := f r in
        Returned (a, mkGalvo (focus_distance self) (galvo_gap self) (Some r'))
    end.

Definition get {A} (field : MultiAxisGalvanometer -> A) : method A :=
  fun self => Returned (field self, self).

Definition __init__ (focus_distance galvo_gap : float) : MultiAxisGalvanometer :=
  mkGalvo focus_distance galvo_gap None.

Definition set_ray (r : Ray) : method unit :=
  fun self =>
    Returned (tt, mkGalvo (focus_distance self) (galvo_gap self) (Some r)).

Definition reflect (normal point : vec) : method unit :=
  on_ray (fun r => Ray.interaction r normal point) ;;
  on_ray (fun r => (tt, Ray.reflection r normal)).

Definition scan (Px1 Px2 nx ny nx_rotation ny_rotation : vec)
           (x_angle y_angle : float) : method unit :=
  on_ray (fun r =>
    (tt, Ray.scan r Px1 Px2 nx ny nx_rotation ny_rotation x_angle y_angle)).

(** [k] defaults to [-1]. *)
Definition refract (normal point : vec) (k : option float) : method unit :=
  let k := match k with Some k => k | None => Fin (-1) end in
  on_ray (fun r => Ray.interaction r normal point) ;;
  on_ray (fun r => (tt, Ray.refraction r k normal)).

Definition trace (X_angle Y_angle : float) : method (option vec) :=
  let n1 := lit 0 1 (-1) in
  let P1 := lit 0 20 0 in
  reflect n1 P1 ;;
  let n2 := lit 0 1 (-1) in
  let P2 := lit 0 20 200 in
  reflect n2 P2 ;;
  let Px1 := lit 0 180 200 in
  gap <- get galvo_gap ;;
  let Px2 := Vec gap (Fin 180) (Fin 200) in
  let nx := lit (-1) 1 0 in
  let ny := lit 1 0 1 in
  let rx := lit 0 0 1 in
  let ry := lit 0 1 0 in
  scan Px1 Px2 nx ny rx ry X_angle Y_angle ;;
  let n5 := lit 0 0 1 in
  gap5 <- get galvo_gap ;;
  let P5 := Vec gap5 (Fin 180) (Fin 170) in
  refract n5 P5 None ;;
  let n := lit 0 0 1 in
  gap6 <- get galvo_gap ;;
  fd <- get focus_distance ;;
  let P := Vec gap6 (Fin 180) (fsub (Fin 170) fd) in
  intersection_point <- on_ray (fun r => Ray.interaction r n P) ;;
  ret intersection_point.

End MultiAxisGalvanometer.

(** ** The specification's descriptions

    The trace as the specification words it: an ordered prescription of
    optical elements, run stage by stage on the ray. *)

Inductive stage : Type :=
| Reflect (normal point : vec)
| Scan (pointA normalA axisA : vec) (angleA : float)
       (pointB normalB axisB : vec) (angleB : float)
| Refract (normal point : vec) (k : float)
| Intersect (normal point : vec).

Definition prescription (focus_distance galvo_gap angleX_deg angleY_deg : float)
  : list stage :=
  [ Reflect (lit 0 1 (-1)) (lit 0 20 0);
    Reflect (lit 0 1 (-1)) (lit 0 20 200);
    Scan (lit 0 180 200) (lit (-1) 1 0) (lit 0 0 1) angleX_deg
         (Vec galvo_gap (Fin 180) (Fin 200)) (lit 1 0 1) (lit 0 1 0) angleY_deg;
    Refract (lit 0 0 1) (Vec galvo_gap (Fin 180) (Fin 170)) (Fin (-1));
    Intersect (lit 0 0 1)
              (Vec galvo_gap (Fin 180) (fsub (Fin 170) focus_distance)) ].

(** One stage: the point it yields (only [Intersect] yields one) and the
    ray after it. *)
Definition run_stage (s : stage) (r : Ray) : option vec * Ray :=
  match s with
  | Reflect n p => (None, Ray.reflection (snd (Ray.interaction r n p)) n)
  | Scan pA nA aA angA pB nB aB angB =>
      (None, Ray.scan r pA pB nA nB aA aB angA angB)
  | Refract n p k => (None, Ray.refraction (snd (Ray.interaction r n p)) k n)
  | Intersect n p => Ray.interaction r n p
  end.

Fixpoint run_stages (l : list stage) (result : option vec) (r : Ray)
  : option vec * Ray :=
  match l with
  | [] => (result, r)
  | s :: l' => let (result', r') := run_stage s r in run_stages l' result' r'
  end.

(** The ray as [trace] brings it to the focal plane: stages 1 to 4, each run
    whatever its intersection returned. *)
Definition before_focal_plane (gap X_angle Y_angle : float) (r : Ray) : Ray :=
  let r1 := Ray.reflection
              (snd (Ray.interaction r (lit 0 1 (-1)) (lit 0 20 0)))
              (lit 0 1 (-1)) in
  let r2 := Ray.reflection
              (snd (Ray.interaction r1 (lit 0 1 (-1)) (lit 0 20 200)))
              (lit 0 1 (-1)) in
  let r3 := Ray.scan r2 (lit 0 180 200) (Vec gap (Fin 180) (Fin 200))
              (lit (-1) 1 0) (lit 1 0 1) (lit 0 0 1) (lit 0 1 0)
              X_angle Y_angle in
  Ray.refraction
    (snd (Ray.interaction r3 (lit 0 0 1) (Vec gap (Fin 180) (Fin 170))))
    (Fin (-1)) (lit 0 0 1).

(** ** Exact vector algebra

    What the array operations compute on finite arrays. *)

Definition zero3 : R3 := V3 0 0 0.
Definition rdot (a b : R3) : R := rx a * rx b + ry a * ry b + rz a * rz b.
Definition radd (a b : R3) : R3 := V3 (rx a + rx b) (ry a + ry b) (rz a + rz b).
Definition rsub (a b : R3) : R3 := V3 (rx a - rx b) (ry a - ry b) (rz a - rz b).
Definition rscale (s : R) (a : R3) : R3 := V3 (s * rx a) (s * ry a) (s * rz a).
Definition rcross (a b : R3) : R3 :=
  V3 (ry a * rz b - rz a * ry b)
     (rz a * rx b - rx a * rz b)
     (rx a * ry b - ry a * rx b).
Definition rnorm (a : R3) : R := sqrt (rdot a a).
Definition runit (a : R3) : R3 :=
  V3 (rx a / rnorm a) (ry a / rnorm a) (rz a / rnorm a).

(** The exact counterparts of [reflection], of the intersection parameter
    [t] of [interaction], of the clamped angle of [refraction] and of
    Rodrigues' formula, on a unit normal [u]. *)
Definition rmulr (a : R3) (s : R) : R3 := V3 (rx a * s) (ry a * s) (rz a * s).
Definition rreflect (d u : R3) : R3 := rsub d (rscale (2 * rdot d u) u).
Definition rparam (p d u P : R3) : R := rdot (rsub P p) u / rdot d u.
Definition racos_theta (c : R) : R := if rle 1 (Rabs c) then 0 else acos c.
Definition rrotate (v a : R3) (theta : R) : R3 :=
  radd (radd (rmulr v (cos theta)) (rmulr (rcross a v) (sin theta)))
       (rmulr (rmulr a (rdot a v)) (1 - cos theta)).

(** [sqrt (1 + k^2 acos_theta^2)] and the direction [refraction] builds before
    its last normalisation, on a unit normal [u] and with [q] the parallel
    direction vector. *)
Definition rroot (k a : R) : R := sqrt (1 + k * k * (a * a)).
Definition rparallel (d u : R3) : R3 := radd d (rscale (- rdot d u) u).
Definition rrefract (d : R3) (k : R) (u : R3) : R3 :=
  let a := racos_theta (- rdot d u) in
  radd (rscale (-1 * (1 / rroot k a)) u)
       (rscale (k * a / rroot k a) (runit (rparallel d u))).

(** An array has unit length: [np.linalg.norm] of it is 1. *)
Definition unit_length (v : vec) : Prop := norm v = Fin 1.

Definition nan3 : vec := Vec NaN NaN NaN.

(** A ray whose position and direction are finite. *)
Definition finray (p d : R3) : Ray := mkRay (fin3 p) (fin3 d).

(** A ray that starts beyond the first mirror: position (0,30,0), direction
    (3,4,0) normalised. *)
Definition late_ray : Ray := finray (V3 0 30 0) (V3 (3 / 5) (4 / 5) 0).

(** ** MutiAxisParam.py, the helper for mechanical errors

    [rotate_normal_vector] turns a normal by three angles in degrees, about
    the X, then the Y, then the Z axis.  A 3x3 array is its three rows. *)

Record mat3 : Type := Mat { row0 : vec; row1 : vec; row2 : vec }.

(** [np.dot(matrix, vector)] *)
Definition matvec (m : mat3) (v : vec) : vec :=
  Vec (dot (row0 m) v) (dot (row1 m) v) (dot (row2 m) v).

(** [np.radians] *)
Definition radians (a : float) : float := fmul a (fdiv pi (Fin 180)).

Definition rotate_normal_vector (normal_vector0 angles : vec) : vec :=
  let normal_vector := vdiv normal_vector0 (norm normal_vector0) in
  let angles_rad := Vec (radians (vx angles)) (radians (vy angles))
                        (radians (vz angles)) in
  let rotation_matrices :=
    [ Mat (Vec (Fin 1) (Fin 0) (Fin 0))
          (Vec (Fin 0) (fcos (vx angles_rad)) (fopp (fsin (vx angles_rad))))
          (Vec (Fin 0) (fsin (vx angles_rad)) (fcos (vx angles_rad)));
      Mat (Vec (fcos (vy angles_rad)) (Fin 0) (fsin (vy angles_rad)))
          (Vec (Fin 0) (Fin 1) (Fin 0))
          (Vec (fopp (fsin (vy angles_rad))) (Fin 0) (fcos (vy angles_rad)));
      Mat (Vec (fcos (vz angles_rad)) (fopp (fsin (vz angles_rad))) (Fin 0))
          (Vec (fsin (vz angles_rad)) (fcos (vz angles_rad)) (Fin 0))
          (Vec (Fin 0) (Fin 0) (Fin 1)) ] in
  fold_left (fun new_normal_vector rotation_matrix =>
               matvec rotation_matrix new_normal_vector)
            rotation_matrices normal_vector.

(** ** Test_Mechnical.py

    [test(num)] up to the list [realresult] that it then writes to the CSV
    file and plots: the computation either yields that list or raises before
    any file is opened.  Beside the galvanometer's [AttributeError], the
    script can raise the [TypeError] of [None - A]. *)

Inductive script_exn : Type :=
| TypeError
| MethodError (e : exn).

Inductive script_outcome (A : Type) : Type :=
| Done (a : A)
| Failed (e : script_exn).
Arguments Done {A} a.
Arguments Failed {A} e.

(** [np.linspace(start, stop, num)] for distinct [start] and [stop]: [num]
    samples [start + i * step] with [step = (stop - start) / (num - 1)],
    the last one set to [stop]; one sample, [start + 0 * (stop - start)],
    when [num] is 1. *)
Definition linspace (start stop : float) (num : nat) : list float :=
  match num with
  | O => []
  | S O => [fadd (fmul (Fin 0) (fsub stop start)) start]
  | S (S m) =>
      let step := fdiv (fsub stop start) (Fin (INR (S m))) in
      map (fun i => fadd (fmul (Fin (INR i)) step) start) (seq 0 (S m))
      ++ [stop]
  end.

(** The body of the two loops: a fresh ray and a fresh galvanometer, and
    one [trace]. *)
Definition sample (i j : float) : outcome (option vec) :=
  let initial_position := lit 0 0 0 in
  let initial_direction := lit 0 1 0 in
  let focus_distance := Fin 165 in
  let galvo_gap := Fin (261 / 20) in
  match Ray.__init__ initial_position initial_direction with
  | Raised e => Raised e
  | Returned ray =>
      let mag := MultiAxisGalvanometer.__init__ focus_distance galvo_gap in
      match MultiAxisGalvanometer.bind (MultiAxisGalvanometer.set_ray ray)
              (fun _ => MultiAxisGalvanometer.trace i j) mag with
      | Raised e => Raised e
      | Returned (intersection_point, _) => Returned intersection_point
      end
  end.

(** [for j in valuey: ... intersection_point_list.append(...)] *)
Fixpoint inner_loop (i : float) (valuey : list float)
         (intersection_point_list : list (option vec))
  : outcome (list (option vec)) :=
  match valuey with
  | [] => Returned intersection_point_list
  | j :: rest =>
      match sample i j with
      | Raised e => Raised e
      | Returned intersection_point =>
          inner_loop i rest (intersection_point_list ++ [intersection_point])
      end
  end.

(** [for i in valuex: for j in valuey: ...] *)
Fixpoint outer_loop (valuex valuey : list float)
         (intersection_point_list : list (option vec))
  : outcome (list (option vec)) :=
  match valuex with
  | [] => Returned intersection_point_list
  | i :: rest =>
      match inner_loop i valuey intersection_point_list with
      | Raised e => Raised e
      | Returned l => outer_loop rest valuey l
      end
  end.

(** [[point - A for point in intersection_point_list]] *)
Fixpoint subtract_reference (A : vec) (intersection_point_list : list (option vec))
  : script_outcome (list vec) :=
  match intersection_point_list with
  | [] => Done []
  | None :: _ => Failed TypeError
  | Some point :: rest =>
      match subtract_reference A rest with
      | Failed e => Failed e
      | Done realresult => Done (vsub point A :: realresult)
      end
  end.

Definition test (num : nat) : script_outcome (list vec) :=
  let galvo_gap := Fin (261 / 20) in
  let valuex := linspace (Fin (-11)) (Fin 11) num in
  let valuey := linspace (Fin (-11)) (Fin 11) num in
  match outer_loop valuex valuey [] with
  | Raised e => Failed (MethodError e)
  | Returned intersection_point_list =>
      let P1 := Vec galvo_gap (Fin 180) (Fin 5) in
      subtract_reference P1 intersection_point_list
  end.

(** * Properties *)

(** ** The comparisons *)

Lemma rlt_true a b : a < b -> rlt a b = true.
Proof. intros H. unfold rlt. destruct (Rlt_dec a b); [reflexivity | contradiction]. Qed.

Lemma rlt_false a b : b <= a -> rlt a b = false.
Proof. intros H. unfold rlt. destruct (Rlt_dec a b); [lra | reflexivity]. Qed.

Lemma rle_true a b : a <= b -> rle a b = true.
Proof. intros H. unfold rle. destruct (Rle_dec a b); [reflexivity | contradiction]. Qed.

Lemma rle_false a b : b < a -> rle a b = false.
Proof. intros H. unfold rle. destruct (Rle_dec a b); [lra | reflexivity]. Qed.

Lemma rzero_true : rzero 0 = true.
Proof. unfold rzero. destruct (Req_EM_T 0 0); [reflexivity | contradiction]. Qed.

Lemma rzero_false a : a <> 0 -> rzero a = false.
Proof. intros H. unfold rzero. destruct (Req_EM_T a 0); [contradiction | reflexivity]. Qed.

Lemma fdiv_fin a b : b <> 0 -> fdiv (Fin a) (Fin b) = Fin (a / b).
Proof. intros H. simpl. rewrite rzero_false by assumption. reflexivity. Qed.

Lemma fsqrt_fin a : 0 <= a -> fsqrt (Fin a) = Fin (sqrt a).
Proof. intros H. simpl. rewrite rlt_false by assumption. reflexivity. Qed.

(** ** Finite arrays *)

Lemma rdot_self_nonneg a : 0 <= rdot a a.
Proof. unfold rdot. nra. Qed.

Lemma rdot_self_pos a : a <> zero3 -> 0 < rdot a a.
Proof.
  intros H. destruct (Rle_lt_or_eq_dec _ _ (rdot_self_nonneg a)) as [Hlt | Heq];
    [assumption | exfalso; apply H].
  destruct a as [x y z]. unfold rdot in Heq. simpl in Heq.
  assert (x = 0) by nra. assert (y = 0) by nra. assert (z = 0) by nra.
  subst. reflexivity.
Qed.

Lemma rnorm_pos a : a <> zero3 -> 0 < rnorm a.
Proof. intros H. apply sqrt_lt_R0, rdot_self_pos, H. Qed.

Lemma rnorm_sq a : rnorm a * rnorm a = rdot a a.
Proof. apply sqrt_sqrt, rdot_self_nonneg. Qed.

Lemma dot_fin3 a b : dot (fin3 a) (fin3 b) = Fin (rdot a b).
Proof. reflexivity. Qed.

Lemma vadd_fin3 a b : vadd (fin3 a) (fin3 b) = fin3 (radd a b).
Proof. reflexivity. Qed.

Lemma smul_fin3 s a : smul (Fin s) (fin3 a) = fin3 (rscale s a).
Proof. reflexivity. Qed.

Lemma norm_fin3 a : norm (fin3 a) = Fin (rnorm a).
Proof.
  unfold norm. rewrite dot_fin3. apply fsqrt_fin, rdot_self_nonneg.
Qed.

Lemma vdiv_fin3 a s :
  s <> 0 -> vdiv (fin3 a) (Fin s) = fin3 (V3 (rx a / s) (ry a / s) (rz a / s)).
Proof.
  intros H. unfold vdiv, fin3. simpl vx; simpl vy; simpl vz.
  rewrite !fdiv_fin by assumption. reflexivity.
Qed.

Lemma normalize_fin3 a :
  a <> zero3 -> vdiv (fin3 a) (norm (fin3 a)) = fin3 (runit a).
Proof.
  intros H. rewrite norm_fin3. apply vdiv_fin3.
  apply Rgt_not_eq, rnorm_pos, H.
Qed.

Lemma runit_unit a : a <> zero3 -> rdot (runit a) (runit a) = 1.
Proof.
  intros H. pose proof (rnorm_pos a H) as Hpos. pose proof (rnorm_sq a) as Hsq.
  unfold runit, rdot at 1. simpl. unfold rdot in Hsq.
  set (s := rnorm a) in *.
  replace (rx a / s * (rx a / s) + ry a / s * (ry a / s) + rz a / s * (rz a / s))
    with ((rx a * rx a + ry a * ry a + rz a * rz a) / (s * s))
    by (field; lra).
  rewrite <- Hsq. field. nra.
Qed.

Lemma runit_nonzero a : a <> zero3 -> runit a <> zero3.
Proof.
  intros H Hz. pose proof (runit_unit a H) as Hu. rewrite Hz in Hu.
  unfold rdot, zero3 in Hu. simpl in Hu. lra.
Qed.

Lemma rnorm_unit a : rdot a a = 1 -> rnorm a = 1.
Proof. intros H. unfold rnorm. rewrite H. apply sqrt_1. Qed.

Lemma normalize_unit_fin3 a :
  rdot a a = 1 -> vdiv (fin3 a) (norm (fin3 a)) = fin3 a.
Proof.
  intros H. rewrite norm_fin3, (rnorm_unit a H), vdiv_fin3 by lra.
  destruct a as [x y z]. simpl. unfold fin3. simpl.
  f_equal; f_equal; field.
Qed.

(** ** The galvanometer's methods on a bound ray *)

Section BoundRay.
Import MultiAxisGalvanometer.
Variables fd gap : float.

Lemma on_ray_bound {A} (f : Ray -> A * Ray) (r : Ray) :
  on_ray f (mkGalvo fd gap (Some r)) =
  Returned (fst (f r), mkGalvo fd gap (Some (snd (f r)))).
Proof. unfold on_ray. simpl. destruct (f r). reflexivity. Qed.

Lemma reflect_bound normal point r :
  reflect normal point (mkGalvo fd gap (Some r)) =
  Returned (tt, mkGalvo fd gap
    (Some (Ray.reflection (snd (Ray.interaction r normal point)) normal))).
Proof. unfold reflect, bind. rewrite !on_ray_bound. reflexivity. Qed.

Lemma scan_bound Px1 Px2 nx ny rx ry ax ay r :
  scan Px1 Px2 nx ny rx ry ax ay (mkGalvo fd gap (Some r)) =
  Returned (tt, mkGalvo fd gap (Some (Ray.scan r Px1 Px2 nx ny rx ry ax ay))).
Proof. unfold scan. rewrite on_ray_bound. reflexivity. Qed.

Lemma refract_bound normal point r :
  refract normal point None (mkGalvo fd gap (Some r)) =
  Returned (tt, mkGalvo fd gap
    (Some (Ray.refraction (snd (Ray.interaction r normal point))
                          (Fin (-1)) normal))).
Proof. unfold refract, bind. rewrite !on_ray_bound. reflexivity. Qed.

Lemma trace_bound X_angle Y_angle r :
  trace X_angle Y_angle (mkGalvo fd gap (Some r)) =
  let last := Ray.interaction (before_focal_plane gap X_angle Y_angle r)
                (lit 0 0 1) (Vec gap (Fin 180) (fsub (Fin 170) fd)) in
  Returned (fst last, mkGalvo fd gap (Some (snd last))).
Proof.
  unfold trace, bind.
  rewrite reflect_bound. rewrite reflect_bound. unfold get. simpl galvo_gap.
  rewrite scan_bound. rewrite refract_bound. simpl focus_distance.
  rewrite on_ray_bound. reflexivity.
Qed.

End BoundRay.

(** C1.  For every focus distance, galvo gap, bound ray and angle pair,
    [trace] runs the prescription of the specification: reflect at normal
    (0,1,-1) through (0,20,0); reflect at normal (0,1,-1) through (0,20,200);
    scan with mirror A at (0,180,200), normal (-1,1,0), axis (0,0,1), angle
    [X_angle], and mirror B at (galvo_gap,180,200), normal (1,0,1), axis
    (0,1,0), angle [Y_angle]; refract at normal (0,0,1) through
    (galvo_gap,180,170) with k = -1; intersect the plane of normal (0,0,1)
    through (galvo_gap,180,170-focus_distance); and it returns the result of
    that last intersection, leaving the ray as the five stages left it. *)
Theorem trace_runs_prescription :
  forall (fd gap : float) (r : Ray) (X_angle Y_angle : float),
    MultiAxisGalvanometer.trace X_angle Y_angle (mkGalvo fd gap (Some r)) =
    let out := run_stages (prescription fd gap X_angle Y_angle) None r in
    Returned (fst out, mkGalvo fd gap (Some (snd out))).
Proof.
  intros fd gap r X_angle Y_angle. rewrite trace_bound.
  unfold prescription, run_stages, run_stage, before_focal_plane.
  cbv zeta.
  destruct (Ray.interaction _ (lit 0 0 1) (Vec gap (Fin 180) (fsub (Fin 170) fd)))
    as [p r'].
  reflexivity.
Qed.

(** ** Degenerate vectors *)

Lemma norm_zero : norm (lit 0 0 0) = Fin 0.
Proof.
  unfold lit. rewrite norm_fin3. unfold rnorm, rdot. simpl.
  replace (0 * 0 + 0 * 0 + 0 * 0) with 0 by ring. rewrite sqrt_0. reflexivity.
Qed.

Lemma normalize_zero : vdiv (lit 0 0 0) (norm (lit 0 0 0)) = nan3.
Proof.
  rewrite norm_zero. unfold vdiv, lit, fin3, nan3. simpl.
  rewrite rzero_true. reflexivity.
Qed.

Lemma fmul_nan_r a : fmul a NaN = NaN.
Proof. destruct a; reflexivity. Qed.

Lemma fadd_nan_r a : fadd a NaN = NaN.
Proof. destruct a; reflexivity. Qed.

Lemma smul_nan3 s : smul s nan3 = nan3.
Proof. unfold smul, nan3. simpl. rewrite fmul_nan_r. reflexivity. Qed.

Lemma vadd_nan3 a : vadd a nan3 = nan3.
Proof. unfold vadd, nan3. simpl. rewrite !fadd_nan_r. reflexivity. Qed.

Lemma normalize_nan : vdiv nan3 (norm nan3) = nan3.
Proof. reflexivity. Qed.

(** C6, as the code has it.  Constructing a ray with the zero direction does
    not raise: for every position the constructor returns a ray at that
    position whose direction components are all NaN (0/0). *)
Theorem init_zero_direction_is_nan :
  forall position : vec,
    Ray.__init__ position (lit 0 0 0) = Returned (mkRay position nan3).
Proof.
  intros position. unfold Ray.__init__. rewrite normalize_zero. reflexivity.
Qed.

(** C6, refuted as stated: [Ray((0,0,0), (0,0,0))] raises nothing and its
    direction is made of NaN components. *)
Lemma init_zero_direction_does_not_raise :
  (forall e, Ray.__init__ (lit 0 0 0) (lit 0 0 0) <> Raised e) /\
  Ray.__init__ (lit 0 0 0) (lit 0 0 0) = Returned (mkRay (lit 0 0 0) nan3).
Proof.
  split.
  - intros e H. unfold Ray.__init__ in H. discriminate H.
  - unfold Ray.__init__. rewrite normalize_zero. reflexivity.
Qed.

(** A zero [parallel_direction_vector], hypothesis [H], turns the direction
    that [refraction] computes into NaN, step by step. *)
Ltac nan_refraction H :=
  unfold Ray.refraction; unfold Ray.parallel_direction_vector in H;
  cbv zeta in *; rewrite H;
  rewrite normalize_zero, smul_nan3, vadd_nan3, normalize_nan.

(** The ray that travels along -z meets the field lens, of normal (0,0,1),
    head-on: its parallel direction vector is zero. *)
Lemma head_on_parallel_zero :
  Ray.parallel_direction_vector (mkRay (lit 0 0 0) (lit 0 0 (-1))) (lit 0 0 1)
  = lit 0 0 0.
Proof.
  assert (Hu : rdot (V3 0 0 1) (V3 0 0 1) = 1) by (unfold rdot; simpl; ring).
  unfold Ray.parallel_direction_vector, lit. cbv zeta. simpl direction.
  rewrite (normalize_unit_fin3 _ Hu), dot_fin3.
  change (fopp (Fin (rdot (V3 0 0 (-1)) (V3 0 0 1))))
    with (Fin (- rdot (V3 0 0 (-1)) (V3 0 0 1))).
  rewrite smul_fin3, vadd_fin3. f_equal.
  unfold radd, rscale, rdot. simpl. f_equal; ring.
Qed.

(** C7, at the failing input.  On the head-on ray, direction (0,0,-1) on
    the normal (0,0,1), the parallel direction vector is zero.  The branch
    [abs(cos_theta) >= 1] of [refraction] sets the angle to 0 for this very
    case, but the normalisation of the parallel vector is not guarded: with
    k = -1 the direction becomes NaN in every component, and is not a unit
    vector. *)
Lemma refraction_head_on_is_nan :
  Ray.parallel_direction_vector (mkRay (lit 0 0 0) (lit 0 0 (-1))) (lit 0 0 1)
    = lit 0 0 0 /\
  direction (Ray.refraction (mkRay (lit 0 0 0) (lit 0 0 (-1)))
                            (Fin (-1)) (lit 0 0 1)) = nan3 /\
  ~ unit_length (direction (Ray.refraction (mkRay (lit 0 0 0) (lit 0 0 (-1)))
                                           (Fin (-1)) (lit 0 0 1))).
Proof.
  pose proof head_on_parallel_zero as H.
  split; [exact H |].
  assert (Hd : direction (Ray.refraction (mkRay (lit 0 0 0) (lit 0 0 (-1)))
                                         (Fin (-1)) (lit 0 0 1)) = nan3)
    by (nan_refraction H; reflexivity).
  split; [exact Hd |]. rewrite Hd. unfold unit_length, nan3, norm, dot.
  cbn. discriminate.
Qed.

(** ** The ray's operations on finite data *)

Lemma vsub_fin3 a b : vsub (fin3 a) (fin3 b) = fin3 (rsub a b).
Proof. reflexivity. Qed.

Lemma vmul_fin3 a s : vmul (fin3 a) (Fin s) = fin3 (rmulr a s).
Proof. reflexivity. Qed.

Lemma cross_fin3 a b : cross (fin3 a) (fin3 b) = fin3 (rcross a b).
Proof. reflexivity. Qed.

Lemma fin3_inj a b : fin3 a = fin3 b -> a = b.
Proof. destruct a, b. unfold fin3. simpl. intros H. injection H as -> -> ->. reflexivity. Qed.

(** A concrete finite array differs from another one. *)
Ltac r3_discr := let E := fresh "E" in intros E; injection E; intros; lra.

(** Equality of the exact vectors, componentwise. *)
Ltac r3_eq := unfold rreflect, rrotate, radd, rsub, rscale, rmulr, rcross, rdot;
              simpl; f_equal.

Lemma reflection_fin pos d N u :
  vdiv N (norm N) = fin3 u ->
  Ray.reflection (mkRay pos (fin3 d)) N = mkRay pos (fin3 (rreflect d u)).
Proof. intros H. unfold Ray.reflection. simpl. rewrite H. reflexivity. Qed.

(** ** The intersection with a plane *)

Lemma interaction_fin p d N P u :
  vdiv N (norm N) = fin3 u ->
  Ray.interaction (finray p d) N (fin3 P) =
  if rlt (Rabs (rdot d u)) (1 / 10000000000) then (None, finray p d)
  else if rlt (rparam p d u P) 0 then (None, finray p d)
  else (Some (fin3 (radd p (rscale (rparam p d u P) d))),
        finray (radd p (rscale (rparam p d u P) d)) d).
Proof.
  intros H. unfold Ray.interaction, finray. simpl position; simpl direction.
  rewrite H, !dot_fin3, vsub_fin3, dot_fin3. cbv zeta.
  change (flt (fabs (Fin (rdot d u))) (Fin (1 / 10000000000)))
    with (rlt (Rabs (rdot d u)) (1 / 10000000000)).
  destruct (rlt (Rabs (rdot d u)) (1 / 10000000000)) eqn:E; [reflexivity |].
  assert (Hd : rdot d u <> 0).
  { intros Hz. rewrite Hz, Rabs_R0 in E. rewrite rlt_true in E by lra.
    discriminate E. }
  rewrite fdiv_fin by assumption. fold (rparam p d u P).
  change (flt (Fin (rparam p d u P)) (Fin 0)) with (rlt (rparam p d u P) 0).
  destruct (rlt (rparam p d u P) 0); reflexivity.
Qed.

(** The direction is not touched by [interaction], whatever the arguments. *)
Lemma interaction_direction r n P :
  direction (snd (Ray.interaction r n P)) = direction r.
Proof.
  unfold Ray.interaction. cbv zeta.
  destruct (flt _ _); [reflexivity |]. destruct (flt _ _); reflexivity.
Qed.

(** C4.  For every ray, normal and point, with [denominator] and [t] as
    [interaction] computes them: [interaction] returns [None] exactly when
    |denominator| < 1e-10 or t < 0 (a comparison with NaN being false), and
    then leaves the ray as it was; otherwise it moves the position to
    position + t * direction, keeps the direction, and returns that
    position. *)
Theorem interaction_none_exactly_on_miss :
  forall (self : Ray) (n P : vec),
    let denominator := interaction_denominator self n in
    let t := interaction_t self n P in
    let point := vadd (position self) (smul t (direction self)) in
    (fst (Ray.interaction self n P) = None <->
       flt (fabs denominator) (Fin (1 / 10000000000)) = true
       \/ flt t (Fin 0) = true) /\
    (fst (Ray.interaction self n P) = None ->
       snd (Ray.interaction self n P) = self) /\
    (fst (Ray.interaction self n P) <> None ->
       Ray.interaction self n P = (Some point, mkRay point (direction self))).
Proof.
  intros self n P. cbv zeta.
  unfold Ray.interaction, interaction_t, interaction_denominator,
    Ray.point_at_parameter. cbv zeta.
  destruct (flt (fabs (dot (direction self) (vdiv n (norm n)))) _) eqn:E1.
  - cbn [fst snd]. repeat split; auto. intros H. contradiction H. reflexivity.
  - destruct (flt (fdiv _ _) (Fin 0)) eqn:E2; cbn [fst snd].
    + repeat split; auto. intros H. contradiction H. reflexivity.
    + repeat split; try discriminate.
      intros [H | H]; discriminate H.
Qed.

(** ** Refraction *)

Lemma acos_theta_fin c :
  (if fge (fabs (Fin c)) (Fin 1) then Fin 0 else facos (Fin c))
  = Fin (racos_theta c).
Proof.
  change (fge (fabs (Fin c)) (Fin 1)) with (rle 1 (Rabs c)).
  unfold racos_theta. destruct (rle 1 (Rabs c)) eqn:E; [reflexivity |].
  assert (Hc : Rabs c < 1).
  { destruct (Rlt_le_dec (Rabs c) 1) as [Hlt | Hle]; [assumption |].
    rewrite rle_true in E by assumption. discriminate E. }
  apply Rabs_def2 in Hc. simpl.
  rewrite (rlt_false c (-1)), (rlt_false 1 c) by lra. reflexivity.
Qed.

Lemma rroot_sq k a : rroot k a * rroot k a = 1 + k * k * (a * a).
Proof.
  apply sqrt_sqrt. pose proof (Rle_0_sqr (k * a)) as H. unfold Rsqr in H. nra.
Qed.

Lemma rroot_pos k a : 0 < rroot k a.
Proof.
  apply sqrt_lt_R0. pose proof (Rle_0_sqr (k * a)) as H. unfold Rsqr in H. nra.
Qed.

Lemma root_fin k a :
  fsqrt (fadd (Fin 1) (fmul (fmul (Fin k) (Fin k)) (fmul (Fin a) (Fin a))))
  = Fin (rroot k a).
Proof.
  change (fadd (Fin 1) (fmul (fmul (Fin k) (Fin k)) (fmul (Fin a) (Fin a))))
    with (Fin (1 + k * k * (a * a))).
  apply fsqrt_fin. pose proof (Rle_0_sqr (k * a)) as H. unfold Rsqr in H. nra.
Qed.

Lemma rdot_lincomb (al be : R) (u q : R3) :
  rdot (radd (rscale al u) (rscale be q)) (radd (rscale al u) (rscale be q))
  = al * al * rdot u u + 2 * al * be * rdot q u + be * be * rdot q q.
Proof. unfold radd, rscale, rdot. simpl. ring. Qed.

Lemma rdot_runit_l q u : q <> zero3 -> rdot (runit q) u = rdot q u / rnorm q.
Proof.
  intros Hq. pose proof (Rgt_not_eq _ _ (rnorm_pos q Hq)) as Hr.
  unfold runit, rdot. simpl. field. assumption.
Qed.

Lemma rparallel_orthogonal d u : rdot u u = 1 -> rdot (rparallel d u) u = 0.
Proof.
  intros Hu. destruct d as [x y z], u as [a b c].
  unfold rdot in Hu. simpl in Hu.
  assert (Hc : c * c = 1 - a * a - b * b) by lra.
  unfold rparallel, radd, rscale, rdot. simpl. ring [Hc].
Qed.

Lemma rrefract_unit d k u :
  rdot u u = 1 -> rparallel d u <> zero3 ->
  rdot (rrefract d k u) (rrefract d k u) = 1.
Proof.
  intros Hu Hq. unfold rrefract. cbv zeta.
  set (a := racos_theta (- rdot d u)).
  rewrite rdot_lincomb, Hu, (runit_unit _ Hq), (rdot_runit_l _ _ Hq),
    (rparallel_orthogonal d u Hu).
  pose proof (rroot_pos k a) as Hs. pose proof (rroot_sq k a) as Hsq.
  set (s := rroot k a) in *.
  replace (-1 * (1 / s) * (-1 * (1 / s)) * 1 +
           2 * (-1 * (1 / s)) * (k * a / s) * (0 / rnorm (rparallel d u)) +
           k * a / s * (k * a / s) * 1)
    with ((1 + k * k * (a * a)) / (s * s)).
  - rewrite <- Hsq. field. apply Rgt_not_eq, Hs.
  - field.
    split; first [apply Rgt_not_eq, Hs | apply Rgt_not_eq, rnorm_pos, Hq].
Qed.

Lemma refraction_fin pos d k N u :
  vdiv N (norm N) = fin3 u -> rdot u u = 1 -> rparallel d u <> zero3 ->
  Ray.refraction (mkRay pos (fin3 d)) (Fin k) N
  = mkRay pos (fin3 (rrefract d k u)).
Proof.
  intros H Hu Hq. unfold Ray.refraction. cbv zeta.
  simpl position; simpl direction. rewrite H, dot_fin3.
  change (fopp (Fin (rdot d u))) with (Fin (- rdot d u)).
  rewrite acos_theta_fin, root_fin.
  set (a := racos_theta (- rdot d u)).
  assert (Hs : rroot k a <> 0) by (apply Rgt_not_eq, rroot_pos).
  rewrite !fdiv_fin by (try assumption).
  change (fmul (Fin k) (Fin a)) with (Fin (k * a)).
  rewrite fdiv_fin by assumption.
  change (fmul (Fin (-1)) (Fin (1 / rroot k a)))
    with (Fin (-1 * (1 / rroot k a))).
  rewrite !smul_fin3, vadd_fin3. fold (rparallel d u).
  rewrite (normalize_fin3 _ Hq), smul_fin3, vadd_fin3.
  fold a. change (radd _ _) with (rrefract d k u).
  rewrite (normalize_unit_fin3 _ (rrefract_unit d k u Hu Hq)). reflexivity.
Qed.

(** ** Rodrigues' rotation *)

Lemma rotate_fin v a theta :
  v <> zero3 -> a <> zero3 ->
  rotate_vector_around_axis (fin3 v) (fin3 a) (Fin theta)
  = fin3 (rrotate (runit v) (runit a) theta).
Proof.
  intros Hv Ha. unfold rotate_vector_around_axis. cbv zeta.
  rewrite (normalize_fin3 v Hv), (normalize_fin3 a Ha). reflexivity.
Qed.

Lemma rrotate_identity v a theta :
  cos theta = 1 -> sin theta = 0 -> rrotate v a theta = v.
Proof.
  intros Hc Hs. destruct v as [x y z], a as [p q r].
  unfold rrotate. rewrite Hc, Hs. r3_eq; ring.
Qed.

Lemma unit_nonzero a : rdot a a = 1 -> a <> zero3.
Proof. intros H E. rewrite E in H. unfold rdot, zero3 in H. simpl in H. lra. Qed.

Lemma rotate_no_turn v a theta :
  v <> zero3 -> a <> zero3 -> cos theta = 1 -> sin theta = 0 ->
  rotate_vector_around_axis (fin3 v) (fin3 a) (Fin theta) = fin3 (runit v).
Proof.
  intros Hv Ha Hc Hs.
  rewrite (rotate_fin v a theta Hv Ha), (rrotate_identity _ _ _ Hc Hs).
  reflexivity.
Qed.

Lemma runit_2_0_0 : runit (V3 2 0 0) = V3 1 0 0.
Proof.
  assert (Hn : rnorm (V3 2 0 0) = 2).
  { unfold rnorm, rdot. simpl.
    replace (2 * 2 + 0 * 0 + 0 * 0) with (2 * 2) by ring.
    apply sqrt_square. lra. }
  unfold runit. rewrite Hn. simpl. f_equal; field.
Qed.

(** The rotation in terms of the normalised vector and axis, when finite. *)
Lemma rotate_normalized v a u w theta :
  vdiv v (norm v) = fin3 u -> vdiv a (norm a) = fin3 w ->
  rotate_vector_around_axis v a theta
  = vadd (vadd (vmul (fin3 u) (fcos theta))
               (vmul (fin3 (rcross w u)) (fsin theta)))
         (vmul (fin3 (rmulr w (rdot w u))) (fsub (Fin 1) (fcos theta))).
Proof.
  intros Hv Ha. unfold rotate_vector_around_axis. cbv zeta.
  rewrite Hv, Ha, cross_fin3, dot_fin3, vmul_fin3. reflexivity.
Qed.

Lemma rotate_cos_one v a u w theta s :
  vdiv v (norm v) = fin3 u -> vdiv a (norm a) = fin3 w ->
  fcos theta = Fin 1 -> fsin theta = Fin s ->
  rotate_vector_around_axis v a theta
  = vadd (fin3 u) (vmul (cross (fin3 w) (fin3 u)) (Fin s)).
Proof.
  intros Hv Ha Hc Hs. rewrite (rotate_normalized v a u w theta Hv Ha), Hc, Hs.
  rewrite cross_fin3. change (fsub (Fin 1) (Fin 1)) with (Fin (1 - 1)).
  rewrite !vmul_fin3, !vadd_fin3. f_equal.
  destruct u, w. r3_eq; ring.
Qed.

Lemma rotate_zero_angle v a u w :
  vdiv v (norm v) = fin3 u -> vdiv a (norm a) = fin3 w ->
  rotate_vector_around_axis v a (Fin 0) = fin3 u.
Proof.
  intros Hv Ha.
  rewrite (rotate_cos_one v a u w (Fin 0) 0 Hv Ha)
    by (simpl; rewrite ?cos_0, ?sin_0; reflexivity).
  rewrite cross_fin3, vmul_fin3, vadd_fin3. f_equal.
  destruct u, w. r3_eq; ring.
Qed.

Lemma cos_2pi : fcos (fmul (Fin 2) pi) = Fin 1.
Proof. unfold pi. simpl. rewrite cos_2PI. reflexivity. Qed.

(** C8, as the code has it.  Let v^ and a^ be the normalised vector and
    axis as the code computes them, both finite.  The rotation by 0 returns
    v^, not v.  The rotation by an angle whose computed cosine is 1, as
    2 pi, returns v^ + sin(angle) * (a^ x v^): v^ within the size of the
    computed sine.  The rotation of v about itself returns
    cos(theta) * v^ + (1 - cos(theta)) * (v^ . v^) * v^: v^ up to the
    rounding of v^ . v^. *)
Theorem rotation_special_cases :
  forall (v a : vec) (u w : R3),
    vdiv v (norm v) = fin3 u -> vdiv a (norm a) = fin3 w ->
    rotate_vector_around_axis v a (Fin 0) = vdiv v (norm v) /\
    (forall theta s,
       fcos theta = Fin 1 -> fsin theta = Fin s ->
       rotate_vector_around_axis v a theta
       = vadd (vdiv v (norm v))
              (vmul (cross (vdiv a (norm a)) (vdiv v (norm v))) (fsin theta))) /\
    rotate_vector_around_axis v a (fmul (Fin 2) pi)
      = vadd (vdiv v (norm v))
             (vmul (cross (vdiv a (norm a)) (vdiv v (norm v)))
                   (fsin (fmul (Fin 2) pi))) /\
    (forall theta,
       rotate_vector_around_axis v v (Fin theta)
       = vadd (vmul (vdiv v (norm v)) (fcos (Fin theta)))
              (vmul (vmul (vdiv v (norm v))
                          (dot (vdiv v (norm v)) (vdiv v (norm v))))
                    (fsub (Fin 1) (fcos (Fin theta))))).
Proof.
  intros v a u w Hv Ha. rewrite Hv, Ha. repeat split.
  - apply (rotate_zero_angle v a u w Hv Ha).
  - intros theta s Hc Hs. rewrite Hs.
    apply (rotate_cos_one v a u w theta s Hv Ha Hc Hs).
  - apply (rotate_cos_one v a u w _ (sin (2 * PI)) Hv Ha cos_2pi).
    reflexivity.
  - intros theta. rewrite (rotate_normalized v v u u (Fin theta) Hv Hv).
    rewrite dot_fin3. cbn [fcos fsin fsub fadd fopp].
    rewrite !vmul_fin3, !vadd_fin3. f_equal.
    destruct u. r3_eq; ring.
Qed.

Lemma rotation_special_cases_witness :
  vdiv (lit 2 0 0) (norm (lit 2 0 0)) = fin3 (V3 1 0 0) /\
  vdiv (lit 0 0 1) (norm (lit 0 0 1)) = fin3 (V3 0 0 1) /\
  rotate_vector_around_axis (lit 2 0 0) (lit 0 0 1) (Fin 0)
    = vdiv (lit 2 0 0) (norm (lit 2 0 0)).
Proof.
  assert (Hv : vdiv (lit 2 0 0) (norm (lit 2 0 0)) = fin3 (V3 1 0 0)).
  { assert (H : V3 2 0 0 <> zero3) by r3_discr.
    unfold lit. rewrite (normalize_fin3 _ H), runit_2_0_0. reflexivity. }
  assert (Ha : vdiv (lit 0 0 1) (norm (lit 0 0 1)) = fin3 (V3 0 0 1)).
  { apply normalize_unit_fin3. unfold rdot. simpl. ring. }
  split; [exact Hv |]. split; [exact Ha |].
  exact (proj1 (rotation_special_cases (lit 2 0 0) (lit 0 0 1) _ _ Hv Ha)).
Defined.

(** C8, refuted as stated: the rotation of (2,0,0) by the angle 0 about the
    axis (0,0,1) is (1,0,0), not (2,0,0). *)
Lemma rotation_by_zero_normalises :
  rotate_vector_around_axis (lit 2 0 0) (lit 0 0 1) (Fin 0) = lit 1 0 0 /\
  rotate_vector_around_axis (lit 2 0 0) (lit 0 0 1) (Fin 0) <> lit 2 0 0.
Proof.
  assert (Hv : V3 2 0 0 <> zero3) by r3_discr.
  assert (Ha : V3 0 0 1 <> zero3) by r3_discr.
  assert (H : rotate_vector_around_axis (lit 2 0 0) (lit 0 0 1) (Fin 0)
              = lit 1 0 0).
  { unfold lit. rewrite (rotate_no_turn _ _ 0 Hv Ha cos_0 sin_0), runit_2_0_0.
    reflexivity. }
  split; [exact H |]. rewrite H. unfold lit. intros E.
  apply fin3_inj in E. injection E as E1. lra.
Qed.

(** ** Construction and angles on finite data *)

Lemma init_fin pos d :
  d <> zero3 ->
  Ray.__init__ pos (fin3 d) = Returned (mkRay pos (fin3 (runit d))).
Proof. intros H. unfold Ray.__init__. rewrite (normalize_fin3 d H). reflexivity. Qed.

Lemma degrees_fin x : fdiv (fmul (Fin x) pi) (Fin 180) = Fin (x * PI / 180).
Proof. unfold pi. change (fmul (Fin x) (Fin PI)) with (Fin (x * PI)).
  apply fdiv_fin. lra. Qed.

(** ** Evaluating the operations on concrete planes

    The unit normal cancels: the reflected direction and the parameter [t]
    are given by the normal as written, and a plane whose normal is not
    longer than 2 is not taken for parallel by a ray that meets it at
    [|d . n| >= 1/1000]. *)

Lemma rdot_runit_r d n : n <> zero3 -> rdot d (runit n) = rdot d n / rnorm n.
Proof.
  intros Hn. pose proof (Rgt_not_eq _ _ (rnorm_pos n Hn)) as Hr.
  unfold runit, rdot. simpl. field. assumption.
Qed.

Lemma rnorm_le_2 n : rdot n n <= 4 -> rnorm n <= 2.
Proof.
  intros H. unfold rnorm. replace 2 with (sqrt (2 * 2)) by (apply sqrt_square; lra).
  apply sqrt_le_1_alt. lra.
Qed.

Lemma not_parallel d n :
  n <> zero3 -> rdot n n <= 4 ->
  1 / 1000 <= rdot d n \/ rdot d n <= - (1 / 1000) ->
  rlt (Rabs (rdot d (runit n))) (1 / 10000000000) = false.
Proof.
  intros Hn H4 Hd. apply rlt_false.
  pose proof (rnorm_pos n Hn) as Hpos. pose proof (rnorm_le_2 n H4) as Hle.
  rewrite (rdot_runit_r d n Hn). set (s := rnorm n) in *. clearbody s.
  assert (Hi : / 2 <= / s) by (apply Rinv_le_contravar; lra).
  assert (Hi0 : 0 < / s) by (apply Rinv_0_lt_compat; lra).
  unfold Rdiv. unfold Rabs. destruct (Rcase_abs (rdot d n * / s)) as [Hneg | Hnn].
  - destruct Hd as [Hd | Hd]; nra.
  - destruct Hd as [Hd | Hd]; nra.
Qed.

Lemma rparam_runit p d n P t :
  n <> zero3 -> rdot d n <> 0 -> rdot (rsub P p) n = t * rdot d n ->
  rparam p d (runit n) P = t.
Proof.
  intros Hn Hd Ht. pose proof (Rgt_not_eq _ _ (rnorm_pos n Hn)) as Hr.
  unfold rparam. rewrite !rdot_runit_r, Ht by assumption. field. auto.
Qed.

Lemma interaction_hit p d n P N t q :
  vdiv N (norm N) = fin3 (runit n) ->
  n <> zero3 -> rdot n n <= 4 ->
  1 / 1000 <= rdot d n \/ rdot d n <= - (1 / 1000) ->
  rdot (rsub P p) n = t * rdot d n -> 0 <= t ->
  q = radd p (rscale t d) ->
  Ray.interaction (finray p d) N (fin3 P) = (Some (fin3 q), finray q d).
Proof.
  intros HN Hn H4 Hd Ht Ht0 ->.
  assert (Hd0 : rdot d n <> 0) by (destruct Hd; lra).
  rewrite (interaction_fin p d N P (runit n) HN), (not_parallel d n Hn H4 Hd).
  rewrite (rparam_runit p d n P t Hn Hd0 Ht), rlt_false by assumption.
  reflexivity.
Qed.

Lemma interaction_behind p d n P N t :
  vdiv N (norm N) = fin3 (runit n) ->
  n <> zero3 -> rdot n n <= 4 ->
  1 / 1000 <= rdot d n \/ rdot d n <= - (1 / 1000) ->
  rdot (rsub P p) n = t * rdot d n -> t < 0 ->
  Ray.interaction (finray p d) N (fin3 P) = (None, finray p d).
Proof.
  intros HN Hn H4 Hd Ht Ht0.
  assert (Hd0 : rdot d n <> 0) by (destruct Hd; lra).
  rewrite (interaction_fin p d N P (runit n) HN), (not_parallel d n Hn H4 Hd).
  rewrite (rparam_runit p d n P t Hn Hd0 Ht), rlt_true by assumption.
  reflexivity.
Qed.

Lemma rreflect_runit d n :
  n <> zero3 ->
  rreflect d (runit n) = rsub d (rscale (2 * rdot d n / rdot n n) n).
Proof.
  intros Hn. pose proof (rnorm_pos n Hn) as Hpos.
  pose proof (rnorm_sq n) as Hsq. rewrite <- Hsq.
  unfold rreflect. rewrite (rdot_runit_r d n Hn).
  unfold runit, rsub, rscale. simpl.
  set (s := rnorm n) in *. clearbody s.
  f_equal; field; lra.
Qed.

Lemma reflection_raw p d n N d' :
  vdiv N (norm N) = fin3 (runit n) -> n <> zero3 ->
  d' = rsub d (rscale (2 * rdot d n / rdot n n) n) ->
  Ray.reflection (finray p d) N = finray p d'.
Proof.
  intros HN Hn ->. unfold finray.
  rewrite (reflection_fin (fin3 p) d N (runit n) HN), (rreflect_runit d n Hn).
  reflexivity.
Qed.

Lemma runit_idem n : n <> zero3 -> runit (runit n) = runit n.
Proof.
  intros Hn. unfold runit at 1. rewrite (rnorm_unit _ (runit_unit n Hn)).
  destruct (runit n) as [x y z]. simpl. f_equal; field.
Qed.

Lemma normalized_normal n :
  n <> zero3 ->
  vdiv (fin3 (runit n)) (norm (fin3 (runit n))) = fin3 (runit n).
Proof. intros Hn. apply normalize_unit_fin3, runit_unit, Hn. Qed.

Lemma scan_no_turn r Px1 Px2 nx ny ax ay :
  nx <> zero3 -> ny <> zero3 -> ax <> zero3 -> ay <> zero3 ->
  Ray.scan r Px1 Px2 (fin3 nx) (fin3 ny) (fin3 ax) (fin3 ay) (Fin 0) (Fin 0)
  = Ray.reflection
      (snd (Ray.interaction
              (Ray.reflection (snd (Ray.interaction r (fin3 (runit nx)) Px1))
                              (fin3 (runit nx)))
              (fin3 (runit ny)) Px2))
      (fin3 (runit ny)).
Proof.
  intros Hnx Hny Hax Hay. unfold Ray.scan. cbv zeta.
  rewrite (normalize_fin3 nx Hnx), (normalize_fin3 ny Hny),
    (normalize_fin3 ax Hax), (normalize_fin3 ay Hay), !degrees_fin.
  replace (0 * PI / 180) with 0 by field.
  rewrite (rotate_no_turn _ _ 0 (runit_nonzero nx Hnx) (runit_nonzero ax Hax)
             cos_0 sin_0).
  rewrite (rotate_no_turn _ _ 0 (runit_nonzero ny Hny) (runit_nonzero ay Hay)
             cos_0 sin_0).
  rewrite (runit_idem nx Hnx), (runit_idem ny Hny). reflexivity.
Qed.

Lemma interaction_none_keeps_ray r n P :
  fst (Ray.interaction r n P) = None -> snd (Ray.interaction r n P) = r.
Proof.
  unfold Ray.interaction. cbv zeta.
  destruct (flt _ _); [reflexivity |]. destruct (flt _ _); [reflexivity |].
  simpl. discriminate.
Qed.

(** ** A trace whose first intersection fails

    The set-up of the test script (focus distance 165, galvo gap 13.05, no
    steering), with [late_ray] for the ray. *)

Ltac dot_side := unfold rdot, rsub, radd, rscale; simpl; lra.

Lemma late_ray_constructed :
  Ray.__init__ (lit 0 30 0) (lit 3 4 0) = Returned late_ray.
Proof.
  assert (H : V3 3 4 0 <> zero3) by r3_discr.
  unfold lit. rewrite (init_fin _ _ H). unfold late_ray, finray.
  assert (Hn : rnorm (V3 3 4 0) = 5).
  { unfold rnorm, rdot. simpl.
    replace (3 * 3 + 4 * 4 + 0 * 0) with (5 * 5) by ring.
    apply sqrt_square. lra. }
  unfold runit. rewrite Hn. simpl.
  replace (0 / 5) with 0 by field. reflexivity.
Qed.

Lemma late_stage1_miss :
  Ray.interaction late_ray (lit 0 1 (-1)) (lit 0 20 0) = (None, late_ray).
Proof.
  assert (Hn : V3 0 1 (-1) <> zero3) by r3_discr.
  apply (interaction_behind _ _ (V3 0 1 (-1)) _ _ (- (25 / 2))
           (normalize_fin3 _ Hn) Hn).
  - dot_side.
  - left. dot_side.
  - dot_side.
  - lra.
Qed.

Lemma late_stage1 :
  Ray.reflection late_ray (lit 0 1 (-1))
  = finray (V3 0 30 0) (V3 (3 / 5) 0 (4 / 5)).
Proof.
  assert (Hn : V3 0 1 (-1) <> zero3) by r3_discr.
  apply (reflection_raw _ _ (V3 0 1 (-1)) _ _ (normalize_fin3 _ Hn) Hn).
  r3_eq; field.
Qed.

Lemma late_stage2_hit :
  Ray.interaction (finray (V3 0 30 0) (V3 (3 / 5) 0 (4 / 5)))
                  (lit 0 1 (-1)) (lit 0 20 200)
  = (Some (lit (315 / 2) 30 210),
     finray (V3 (315 / 2) 30 210) (V3 (3 / 5) 0 (4 / 5))).
Proof.
  assert (Hn : V3 0 1 (-1) <> zero3) by r3_discr.
  apply (interaction_hit _ _ (V3 0 1 (-1)) _ _ (525 / 2)
           _ (normalize_fin3 _ Hn) Hn).
  - dot_side.
  - right. dot_side.
  - dot_side.
  - lra.
  - r3_eq; field.
Qed.

Lemma late_stage2 :
  Ray.reflection (finray (V3 (315 / 2) 30 210) (V3 (3 / 5) 0 (4 / 5)))
                 (lit 0 1 (-1))
  = finray (V3 (315 / 2) 30 210) (V3 (3 / 5) (4 / 5) 0).
Proof.
  assert (Hn : V3 0 1 (-1) <> zero3) by r3_discr.
  apply (reflection_raw _ _ (V3 0 1 (-1)) _ _ (normalize_fin3 _ Hn) Hn).
  r3_eq; field.
Qed.

Lemma late_stage3 :
  Ray.scan (finray (V3 (315 / 2) 30 210) (V3 (3 / 5) (4 / 5) 0))
           (lit 0 180 200) (lit (261 / 20) 180 200)
           (lit (-1) 1 0) (lit 1 0 1) (lit 0 0 1) (lit 0 1 0) (Fin 0) (Fin 0)
  = finray (V3 1080 1260 210) (V3 0 (3 / 5) (- (4 / 5))).
Proof.
  assert (Hnx : V3 (-1) 1 0 <> zero3) by r3_discr.
  assert (Hny : V3 1 0 1 <> zero3) by r3_discr.
  assert (Hax : V3 0 0 1 <> zero3) by r3_discr.
  assert (Hay : V3 0 1 0 <> zero3) by r3_discr.
  unfold lit. rewrite (scan_no_turn _ _ _ _ _ _ _ Hnx Hny Hax Hay).
  rewrite (interaction_hit _ _ (V3 (-1) 1 0) (V3 0 180 200) _ (3075 / 2)
             (V3 1080 1260 210) (normalized_normal _ Hnx) Hnx);
    [| dot_side | left; dot_side | dot_side | lra | r3_eq; field].
  simpl snd.
  rewrite (reflection_raw _ _ (V3 (-1) 1 0) _ (V3 (4 / 5) (3 / 5) 0)
             (normalized_normal _ Hnx) Hnx); [| r3_eq; field].
  rewrite (interaction_behind _ _ (V3 1 0 1) (V3 (261 / 20) 180 200) _
             (- (21539 / 16)) (normalized_normal _ Hny) Hny);
    [| dot_side | left; dot_side | dot_side | lra].
  simpl snd.
  apply (reflection_raw _ _ (V3 1 0 1) _ _ (normalized_normal _ Hny) Hny).
  r3_eq; field.
Qed.

Lemma late_stage4_hit :
  Ray.interaction (finray (V3 1080 1260 210) (V3 0 (3 / 5) (- (4 / 5))))
                  (lit 0 0 1) (lit (261 / 20) 180 170)
  = (Some (lit 1080 1290 170),
     finray (V3 1080 1290 170) (V3 0 (3 / 5) (- (4 / 5)))).
Proof.
  assert (Hn : V3 0 0 1 <> zero3) by r3_discr.
  apply (interaction_hit _ _ (V3 0 0 1) _ _ 50 _ (normalize_fin3 _ Hn) Hn).
  - dot_side.
  - right. dot_side.
  - dot_side.
  - lra.
  - r3_eq; field.
Qed.

Lemma rle_abs_small c : -1 < c < 1 -> rle 1 (Rabs c) = false.
Proof. intros H. apply rle_false, Rabs_def1; lra. Qed.

Lemma late_stage4 :
  Ray.refraction (finray (V3 1080 1290 170) (V3 0 (3 / 5) (- (4 / 5))))
                 (Fin (-1)) (lit 0 0 1)
  = finray (V3 1080 1290 170)
           (V3 0 (- acos (4 / 5) / rroot (-1) (acos (4 / 5)))
                 (- (1 / rroot (-1) (acos (4 / 5))))).
Proof.
  set (d := V3 0 (3 / 5) (- (4 / 5))). set (u := V3 0 0 1).
  assert (Hu : rdot u u = 1) by (unfold rdot; simpl; ring).
  assert (Hc : - rdot d u = 4 / 5) by (unfold rdot; simpl; field).
  assert (Hpar : rparallel d u = V3 0 (3 / 5) 0).
  { unfold rparallel. rewrite Hc. unfold radd, rscale. simpl. f_equal; field. }
  assert (Hq : rparallel d u <> zero3) by (rewrite Hpar; r3_discr).
  unfold finray, lit. fold u.
  rewrite (refraction_fin _ d (-1) _ u (normalize_unit_fin3 u Hu) Hu Hq).
  f_equal. f_equal.
  unfold rrefract. cbv zeta. rewrite Hpar, Hc.
  unfold racos_theta. rewrite rle_abs_small by lra.
  assert (Hr : runit (V3 0 (3 / 5) 0) = V3 0 1 0).
  { assert (Hn : rnorm (V3 0 (3 / 5) 0) = 3 / 5).
    { unfold rnorm, rdot. simpl.
      replace (0 * 0 + 3 / 5 * (3 / 5) + 0 * 0) with (3 / 5 * (3 / 5)) by ring.
      apply sqrt_square. lra. }
    unfold runit. rewrite Hn. simpl. f_equal; field. }
  rewrite Hr.
  pose proof (Rgt_not_eq _ _ (rroot_pos (-1) (acos (4 / 5)))) as Hs.
  unfold radd, rscale. simpl. f_equal; field; assumption.
Qed.

Lemma rroot_acos_le x : rroot (-1) (acos x) <= 5.
Proof.
  pose proof (acos_bound x) as [Ha0 Ha]. pose proof PI_4 as Hpi.
  pose proof (rroot_pos (-1) (acos x)) as Hs.
  pose proof (rroot_sq (-1) (acos x)) as Hsq.
  set (s := rroot (-1) (acos x)) in *. clearbody s.
  set (a := acos x) in *. clearbody a. nra.
Qed.

Lemma late_stage5_hit :
  Ray.interaction
    (finray (V3 1080 1290 170)
            (V3 0 (- acos (4 / 5) / rroot (-1) (acos (4 / 5)))
                  (- (1 / rroot (-1) (acos (4 / 5))))))
    (lit 0 0 1) (Vec (Fin (261 / 20)) (Fin 180) (fsub (Fin 170) (Fin 165)))
  = (Some (lit 1080 (1290 - 165 * acos (4 / 5)) 5),
     finray (V3 1080 (1290 - 165 * acos (4 / 5)) 5)
            (V3 0 (- acos (4 / 5) / rroot (-1) (acos (4 / 5)))
                  (- (1 / rroot (-1) (acos (4 / 5)))))).
Proof.
  assert (Hn : V3 0 0 1 <> zero3) by r3_discr.
  pose proof (rroot_pos (-1) (acos (4 / 5))) as Hs.
  pose proof (rroot_acos_le (4 / 5)) as Hs5.
  set (s := rroot (-1) (acos (4 / 5))) in *. clearbody s.
  change (Vec (Fin (261 / 20)) (Fin 180) (fsub (Fin 170) (Fin 165)))
    with (fin3 (V3 (261 / 20) 180 (170 - 165))).
  apply (interaction_hit _ _ (V3 0 0 1) _ _ (165 * s) _
           (normalize_fin3 _ Hn) Hn).
  - dot_side.
  - right. unfold rdot. simpl.
    assert (Hi : / 5 <= / s) by (apply Rinv_le_contravar; lra).
    unfold Rdiv. lra.
  - unfold rdot, rsub. simpl. field. lra.
  - lra.
  - r3_eq; field; lra.
Qed.

(** C2, refuted as stated: with the ray constructed at (0,30,0) along
    (3,4,0), the intersection of the first stage fails (the first mirror is
    behind the ray), and [trace(0, 0)] still runs every later stage and
    returns a point. *)
Lemma trace_returns_point_after_failed_stage :
  Ray.__init__ (lit 0 30 0) (lit 3 4 0) = Returned late_ray /\
  fst (Ray.interaction late_ray (lit 0 1 (-1)) (lit 0 20 0)) = None /\
  exists final,
    MultiAxisGalvanometer.trace (Fin 0) (Fin 0)
      (mkGalvo (Fin 165) (Fin (261 / 20)) (Some late_ray))
    = Returned (Some (lit 1080 (1290 - 165 * acos (4 / 5)) 5),
                mkGalvo (Fin 165) (Fin (261 / 20)) (Some final)).
Proof.
  split; [exact late_ray_constructed |].
  split; [rewrite late_stage1_miss; reflexivity |].
  eexists. rewrite trace_bound. unfold before_focal_plane. cbv zeta.
  rewrite late_stage1_miss. cbn [snd]. rewrite late_stage1.
  rewrite late_stage2_hit. cbn [snd]. rewrite late_stage2.
  change (Vec (Fin (261 / 20)) (Fin 180) (Fin 200))
    with (lit (261 / 20) 180 200).
  rewrite late_stage3.
  change (Vec (Fin (261 / 20)) (Fin 180) (Fin 170))
    with (lit (261 / 20) 180 170).
  rewrite late_stage4_hit. cbn [snd]. rewrite late_stage4.
  rewrite late_stage5_hit. simpl fst; cbn [snd]. reflexivity.
Qed.

(** C2, as the code has it.  A failed intersection stops nothing: the stage
    leaves the ray where it was and still applies its reflection or
    refraction, the later stages run, and [trace] returns what the last
    intersection, with the focal plane, returns: [None] exactly when that
    one fails. *)
Theorem trace_ignores_failed_intersections :
  forall (fd gap : float) (r : Ray),
    (forall n P,
       fst (Ray.interaction r n P) = None ->
       MultiAxisGalvanometer.reflect n P (mkGalvo fd gap (Some r))
       = Returned (tt, mkGalvo fd gap (Some (Ray.reflection r n)))) /\
    (forall n P,
       fst (Ray.interaction r n P) = None ->
       MultiAxisGalvanometer.refract n P None (mkGalvo fd gap (Some r))
       = Returned (tt, mkGalvo fd gap (Some (Ray.refraction r (Fin (-1)) n)))) /\
    (forall X_angle Y_angle,
       exists final,
         MultiAxisGalvanometer.trace X_angle Y_angle (mkGalvo fd gap (Some r))
         = Returned
             (fst (Ray.interaction (before_focal_plane gap X_angle Y_angle r)
                     (lit 0 0 1) (Vec gap (Fin 180) (fsub (Fin 170) fd))),
              mkGalvo fd gap (Some final))).
Proof.
  intros fd gap r. repeat split.
  - intros n P H. rewrite reflect_bound, (interaction_none_keeps_ray r n P H).
    reflexivity.
  - intros n P H. rewrite refract_bound, (interaction_none_keeps_ray r n P H).
    reflexivity.
  - intros X_angle Y_angle. eexists. rewrite trace_bound. reflexivity.
Qed.

(** * Further properties of the ray's operations *)

(** ** The normal's orientation *)

Lemma rscale_nonzero s n : s <> 0 -> n <> zero3 -> rscale s n <> zero3.
Proof.
  intros Hs Hn E. apply Hn. destruct n as [x y z].
  unfold rscale, zero3 in E. simpl in E. injection E as Ex Ey Ez.
  unfold zero3. f_equal; nra.
Qed.

Lemma rnorm_rscale s n : rnorm (rscale s n) = Rabs s * rnorm n.
Proof.
  unfold rnorm.
  replace (rdot (rscale s n) (rscale s n)) with (Rsqr s * rdot n n)
    by (unfold rscale, rdot, Rsqr; simpl; ring).
  rewrite sqrt_mult by (try apply Rle_0_sqr; apply rdot_self_nonneg).
  rewrite sqrt_Rsqr_abs. reflexivity.
Qed.

(** The unit normal of [s * n] is that of [n], or its opposite. *)
Lemma runit_rscale s n :
  s <> 0 -> n <> zero3 ->
  (0 < s /\ runit (rscale s n) = runit n) \/
  (s < 0 /\ runit (rscale s n) = rscale (-1) (runit n)).
Proof.
  intros Hs Hn. pose proof (Rgt_not_eq _ _ (rnorm_pos n Hn)) as Hr.
  pose proof (rnorm_rscale s n) as Hsn.
  destruct (Rlt_le_dec s 0) as [Hneg | Hpos].
  - right. split; [assumption |]. rewrite (Rabs_left s Hneg) in Hsn.
    unfold runit. rewrite Hsn. unfold rscale. simpl.
    f_equal; field; split; auto.
  - left. split; [lra |]. rewrite (Rabs_right s) in Hsn by lra.
    unfold runit. rewrite Hsn. unfold rscale. simpl.
    f_equal; field; split; auto.
Qed.

Lemma rreflect_opp d u : rreflect d (rscale (-1) u) = rreflect d u.
Proof. destruct d, u. r3_eq; ring. Qed.

Lemma rdot_rscale_r d s u : rdot d (rscale s u) = s * rdot d u.
Proof. unfold rdot, rscale. simpl. ring. Qed.

Lemma rparam_opp p d u P : rparam p d (rscale (-1) u) P = rparam p d u P.
Proof.
  unfold rparam. rewrite !rdot_rscale_r. unfold Rdiv.
  replace (-1 * rdot d u) with (- rdot d u) by ring.
  rewrite Rinv_opp. ring.
Qed.

Lemma r3_zero_cases n : n = zero3 \/ n <> zero3.
Proof.
  destruct n as [x y z].
  destruct (Req_dec x 0) as [-> | Hx]; [| right; intros E; injection E; auto].
  destruct (Req_dec y 0) as [-> | Hy]; [| right; intros E; injection E; auto].
  destruct (Req_dec z 0) as [-> | Hz]; [| right; intros E; injection E; auto].
  left. reflexivity.
Qed.

Lemma rscale_opp_zero : rscale (-1) zero3 = zero3.
Proof. unfold rscale, zero3. simpl. f_equal; ring. Qed.

(** X4.  The mirror's normal may point either way: on a finite direction,
    [reflection] with the opposite normal gives the same ray, also for the
    zero normal. *)
Theorem reflection_normal_flip :
  forall (pos : vec) (d n : R3),
    Ray.reflection (mkRay pos (fin3 d)) (fin3 (rscale (-1) n))
    = Ray.reflection (mkRay pos (fin3 d)) (fin3 n).
Proof.
  intros pos d n. destruct (r3_zero_cases n) as [-> | Hn].
  - rewrite rscale_opp_zero. reflexivity.
  - assert (Hm : -1 <> 0) by lra.
    rewrite (reflection_fin pos d _ _
               (normalize_fin3 _ (rscale_nonzero _ _ Hm Hn))).
    rewrite (reflection_fin pos d _ _ (normalize_fin3 _ Hn)).
    destruct (runit_rscale (-1) n Hm Hn) as [[Hpos _] | [_ ->]]; [lra |].
    rewrite rreflect_opp. reflexivity.
Qed.

(** X5.  The plane's normal may point either way: on a finite ray,
    [interaction] with the opposite normal gives the same point, or the
    same miss, also for the zero normal. *)
Theorem interaction_normal_flip :
  forall (p d n P : R3),
    Ray.interaction (finray p d) (fin3 (rscale (-1) n)) (fin3 P)
    = Ray.interaction (finray p d) (fin3 n) (fin3 P).
Proof.
  intros p d n P. destruct (r3_zero_cases n) as [-> | Hn].
  - rewrite rscale_opp_zero. reflexivity.
  - assert (Hm : -1 <> 0) by lra.
    rewrite (interaction_fin p d _ P _
               (normalize_fin3 _ (rscale_nonzero _ _ Hm Hn))).
    rewrite (interaction_fin p d _ P _ (normalize_fin3 _ Hn)).
    destruct (runit_rscale (-1) n Hm Hn) as [[Hpos _] | [_ ->]]; [lra |].
    rewrite rparam_opp, rdot_rscale_r.
    replace (-1 * rdot d (runit n)) with (- rdot d (runit n)) by ring.
    rewrite Rabs_Ropp. reflexivity.
Qed.

(** ** Refraction without deflection *)

Lemma rroot_zero a : rroot 0 a = 1.
Proof.
  unfold rroot. replace (1 + 0 * 0 * (a * a)) with 1 by ring. apply sqrt_1.
Qed.

(** X8.  With [k = 0] the incoming direction does not matter: when the
    normalised normal n^ and the normalised parallel direction vector, as
    the code computes them, are finite, [refraction] sets the direction to
    -n^ normalised once more, and keeps the position. *)
Theorem refraction_k_zero :
  forall (pos : vec) (d : R3) (n : vec) (u w : R3),
    vdiv n (norm n) = fin3 u ->
    vdiv (Ray.parallel_direction_vector (mkRay pos (fin3 d)) n)
         (norm (Ray.parallel_direction_vector (mkRay pos (fin3 d)) n))
      = fin3 w ->
    Ray.refraction (mkRay pos (fin3 d)) (Fin 0) n
    = mkRay pos (vdiv (fin3 (rscale (-1) u)) (norm (fin3 (rscale (-1) u)))).
Proof.
  intros pos d n u w Hn Hq. unfold Ray.refraction.
  unfold Ray.parallel_direction_vector in Hq. cbv zeta in *.
  simpl position; simpl direction. simpl direction in Hq.
  rewrite Hq. rewrite Hn, dot_fin3.
  change (fopp (Fin (rdot d u))) with (Fin (- rdot d u)).
  rewrite acos_theta_fin, root_fin, rroot_zero.
  set (a := racos_theta (- rdot d u)).
  rewrite !fdiv_fin by lra.
  change (fmul (Fin 0) (Fin a)) with (Fin (0 * a)).
  rewrite fdiv_fin by lra.
  change (fmul (Fin (-1)) (Fin (1 / 1))) with (Fin (-1 * (1 / 1))).
  rewrite !smul_fin3, vadd_fin3.
  assert (E : radd (rscale (-1 * (1 / 1)) u) (rscale (0 * a / 1) w)
              = rscale (-1) u) by (destruct u, w; r3_eq; field).
  rewrite E. reflexivity.
Qed.

Lemma refraction_k_zero_witness :
  Ray.refraction (mkRay (lit 0 0 0) (fin3 (V3 0 (3 / 5) (- (4 / 5)))))
                 (Fin 0) (lit 0 0 1)
  = mkRay (lit 0 0 0)
          (vdiv (fin3 (rscale (-1) (V3 0 0 1)))
                (norm (fin3 (rscale (-1) (V3 0 0 1))))).
Proof.
  assert (Hu : rdot (V3 0 0 1) (V3 0 0 1) = 1) by (unfold rdot; simpl; ring).
  assert (Hn : vdiv (lit 0 0 1) (norm (lit 0 0 1)) = fin3 (V3 0 0 1))
    by (apply normalize_unit_fin3, Hu).
  assert (Hp : Ray.parallel_direction_vector
                 (mkRay (lit 0 0 0) (fin3 (V3 0 (3 / 5) (- (4 / 5)))))
                 (lit 0 0 1)
               = fin3 (V3 0 (3 / 5) 0)).
  { unfold Ray.parallel_direction_vector. cbv zeta. simpl direction.
    rewrite Hn, dot_fin3.
    change (fopp (Fin (rdot (V3 0 (3 / 5) (- (4 / 5))) (V3 0 0 1))))
      with (Fin (- rdot (V3 0 (3 / 5) (- (4 / 5))) (V3 0 0 1))).
    rewrite smul_fin3, vadd_fin3. f_equal. r3_eq; field. }
  assert (H0 : V3 0 (3 / 5) 0 <> zero3) by r3_discr.
  refine (refraction_k_zero (lit 0 0 0) (V3 0 (3 / 5) (- (4 / 5))) (lit 0 0 1)
            (V3 0 0 1) (runit (V3 0 (3 / 5) 0)) Hn _).
  rewrite Hp. apply (normalize_fin3 _ H0).
Defined.

(** ** What a zero normal or a NaN direction does *)

Lemma dot_nan3_r v : dot v nan3 = NaN.
Proof. unfold dot, nan3. simpl. rewrite !fmul_nan_r. reflexivity. Qed.

Lemma fdiv_nan_r a : fdiv a NaN = NaN.
Proof. destruct a; reflexivity. Qed.

Lemma vsub_nan3 a : vsub a nan3 = nan3.
Proof. unfold vsub, fsub, nan3. simpl. rewrite !fadd_nan_r. reflexivity. Qed.

(** X21.  A zero normal is not reported as a miss.  With the normal
    (0,0,0), on any ray and for any point, [interaction] returns a point
    made of NaN and makes it the position, and [reflection] turns the
    direction into NaN: both comparisons of [interaction] are false on
    NaN. *)
Theorem zero_normal_is_silent :
  forall (self : Ray) (P : vec),
    Ray.interaction self (lit 0 0 0) P
      = (Some nan3, mkRay nan3 (direction self)) /\
    Ray.reflection self (lit 0 0 0) = mkRay (position self) nan3.
Proof.
  intros self P. split.
  - unfold Ray.interaction, Ray.point_at_parameter. cbv zeta.
    rewrite normalize_zero, !dot_nan3_r, fdiv_nan_r.
    cbn [fabs flt]. unfold smul. cbn [fmul]. fold nan3.
    rewrite vadd_nan3. reflexivity.
  - unfold Ray.reflection. cbv zeta.
    rewrite normalize_zero, smul_nan3, vsub_nan3. reflexivity.
Qed.

(** X22.  A NaN direction is not detected either: once the direction is
    made of NaN, [interaction] returns, for every normal and point, a point
    made of NaN, never [None]. *)
Theorem nan_direction_always_hits :
  forall (pos n P : vec),
    Ray.interaction (mkRay pos nan3) n P = (Some nan3, mkRay nan3 nan3).
Proof.
  intros pos n P. unfold Ray.interaction, Ray.point_at_parameter. cbv zeta.
  cbn [direction position]. unfold dot at 1 2, nan3 at 1 2. cbn [vx vy vz fmul fadd].
  rewrite fdiv_nan_r. cbn [fabs flt]. fold nan3. rewrite smul_nan3, vadd_nan3.
  reflexivity.
Qed.

(** ** Rodrigues' rotation, continued *)

Lemma rrotate_opp v a t : rrotate v (rscale (-1) a) (- t) = rrotate v a t.
Proof.
  unfold rrotate. rewrite cos_neg, sin_neg. destruct v, a. r3_eq; ring.
Qed.

(** X11.  Turning by the opposite angle about the opposite axis is the same
    rotation. *)
Theorem rotation_opposite_axis :
  forall (v a : R3) (theta : R),
    v <> zero3 -> a <> zero3 ->
    rotate_vector_around_axis (fin3 v) (fin3 (rscale (-1) a)) (Fin (- theta))
    = rotate_vector_around_axis (fin3 v) (fin3 a) (Fin theta).
Proof.
  intros v a theta Hv Ha.
  assert (Hm : -1 <> 0) by lra.
  rewrite (rotate_fin v _ (- theta) Hv (rscale_nonzero _ _ Hm Ha)).
  rewrite (rotate_fin v a theta Hv Ha).
  destruct (runit_rscale (-1) a Hm Ha) as [[Hpos _] | [_ ->]]; [lra |].
  rewrite rrotate_opp. reflexivity.
Qed.

Lemma rotation_opposite_axis_witness :
  V3 2 0 1 <> zero3 /\ V3 0 0 3 <> zero3 /\
  rotate_vector_around_axis (lit 2 0 1) (fin3 (rscale (-1) (V3 0 0 3)))
                            (Fin (- 1))
  = rotate_vector_around_axis (lit 2 0 1) (lit 0 0 3) (Fin 1).
Proof.
  assert (Hv : V3 2 0 1 <> zero3) by r3_discr.
  assert (Ha : V3 0 0 3 <> zero3) by r3_discr.
  split; [exact Hv |]. split; [exact Ha |].
  exact (rotation_opposite_axis (V3 2 0 1) (V3 0 0 3) 1 Hv Ha).
Defined.

(** * Further properties of the galvanometer *)

(** X13.  [trace] raises exactly when no ray is bound, and then the
    exception is [AttributeError], as on a galvanometer fresh from
    [__init__]; with a bound ray it returns, and leaves the focus distance
    and the galvo gap as they were and a ray bound. *)
Theorem trace_outcome :
  forall (g : MultiAxisGalvanometer) (X_angle Y_angle : float),
    (ray g = None ->
       MultiAxisGalvanometer.trace X_angle Y_angle g = Raised AttributeError) /\
    (forall r, ray g = Some r ->
       exists p r',
         MultiAxisGalvanometer.trace X_angle Y_angle g
         = Returned (p, mkGalvo (focus_distance g) (galvo_gap g) (Some r'))) /\
    (forall fd gap,
       MultiAxisGalvanometer.trace X_angle Y_angle
         (MultiAxisGalvanometer.__init__ fd gap) = Raised AttributeError).
Proof.
  intros [fd gap rr] X_angle Y_angle. simpl. repeat split.
  - intros ->. reflexivity.
  - intros r ->. rewrite trace_bound. eexists. eexists. reflexivity.
Qed.

Lemma interaction_normal_ext r N N' P :
  vdiv N (norm N) = vdiv N' (norm N') ->
  Ray.interaction r N P = Ray.interaction r N' P.
Proof. intros H. unfold Ray.interaction. cbv zeta. rewrite H. reflexivity. Qed.

Lemma reflection_normal_ext r N N' :
  vdiv N (norm N) = vdiv N' (norm N') ->
  Ray.reflection r N = Ray.reflection r N'.
Proof. intros H. unfold Ray.reflection. cbv zeta. rewrite H. reflexivity. Qed.

Lemma zero_degrees : fdiv (fmul (Fin 0) pi) (Fin 180) = Fin 0.
Proof. rewrite degrees_fin. f_equal. field. Qed.

(** X14.  Unsteered, the scan mirrors are fixed mirrors.  With both angles
    0, [scan] does what [reflect] at the first mirror followed by [reflect]
    at the second does, the normals being the nominal ones normalised twice
    (once by [scan], once by [rotate_vector_around_axis]), provided these
    and the twice-normalised axes are finite; with a ray bound or not. *)
Theorem scan_unsteered :
  forall (g : MultiAxisGalvanometer) (Px1 Px2 nx ny ax ay : vec)
         (ux uy wx wy : R3),
    let twice (v : vec) :=
      vdiv (vdiv v (norm v)) (norm (vdiv v (norm v))) in
    twice nx = fin3 ux -> twice ny = fin3 uy ->
    twice ax = fin3 wx -> twice ay = fin3 wy ->
    MultiAxisGalvanometer.scan Px1 Px2 nx ny ax ay (Fin 0) (Fin 0) g
    = MultiAxisGalvanometer.bind
        (MultiAxisGalvanometer.reflect (twice nx) Px1)
        (fun _ => MultiAxisGalvanometer.reflect (twice ny) Px2) g.
Proof.
  intros [fd gap [r |]] Px1 Px2 nx ny ax ay ux uy wx wy twice Hnx Hny Hax Hay;
    [| reflexivity].
  unfold MultiAxisGalvanometer.bind.
  rewrite scan_bound, reflect_bound, reflect_bound.
  unfold Ray.scan. cbv zeta. rewrite !zero_degrees.
  rewrite (rotate_zero_angle _ _ ux wx Hnx Hax).
  rewrite (rotate_zero_angle _ _ uy wy Hny Hay).
  unfold twice in *. rewrite Hnx, Hny. reflexivity.
Qed.

Lemma twice_normalized n :
  n <> zero3 ->
  vdiv (vdiv (fin3 n) (norm (fin3 n))) (norm (vdiv (fin3 n) (norm (fin3 n))))
  = fin3 (runit n).
Proof. intros Hn. rewrite (normalize_fin3 n Hn). apply normalized_normal, Hn. Qed.

Lemma scan_unsteered_witness :
  MultiAxisGalvanometer.scan (lit 0 180 200) (lit 20 180 200)
    (lit (-1) 1 0) (lit 1 0 1) (lit 0 0 1) (lit 0 1 0) (Fin 0) (Fin 0)
    (mkGalvo (Fin 165) (Fin 20) (Some late_ray))
  = MultiAxisGalvanometer.bind
      (MultiAxisGalvanometer.reflect
         (vdiv (vdiv (lit (-1) 1 0) (norm (lit (-1) 1 0)))
               (norm (vdiv (lit (-1) 1 0) (norm (lit (-1) 1 0)))))
         (lit 0 180 200))
      (fun _ => MultiAxisGalvanometer.reflect
         (vdiv (vdiv (lit 1 0 1) (norm (lit 1 0 1)))
               (norm (vdiv (lit 1 0 1) (norm (lit 1 0 1)))))
         (lit 20 180 200))
      (mkGalvo (Fin 165) (Fin 20) (Some late_ray)).
Proof.
  assert (Hnx : V3 (-1) 1 0 <> zero3) by r3_discr.
  assert (Hny : V3 1 0 1 <> zero3) by r3_discr.
  assert (Hax : V3 0 0 1 <> zero3) by r3_discr.
  assert (Hay : V3 0 1 0 <> zero3) by r3_discr.
  exact (scan_unsteered (mkGalvo (Fin 165) (Fin 20) (Some late_ray))
           (lit 0 180 200) (lit 20 180 200) _ _ _ _ _ _ _ _
           (twice_normalized _ Hnx) (twice_normalized _ Hny)
           (twice_normalized _ Hax) (twice_normalized _ Hay)).
Defined.

(** * The helper for mechanical errors *)

Lemma radians_fin a : radians (Fin a) = Fin (a * (PI / 180)).
Proof.
  unfold radians, pi. rewrite fdiv_fin by lra. reflexivity.
Qed.

Lemma matvec_fin a b c w :
  matvec (Mat (fin3 a) (fin3 b) (fin3 c)) (fin3 w)
  = fin3 (V3 (rdot a w) (rdot b w) (rdot c w)).
Proof. reflexivity. Qed.

Lemma radians_zero : radians (Fin 0) = Fin 0.
Proof. rewrite radians_fin. f_equal. ring. Qed.

(** X17.  With the three angles 0, [rotate_normal_vector] returns the
    normalised normal and nothing else, whenever that is finite: the three
    matrices are then the identity. *)
Theorem rotate_normal_vector_zero_angles :
  forall (n : vec) (u : R3),
    vdiv n (norm n) = fin3 u ->
    rotate_normal_vector n (lit 0 0 0) = vdiv n (norm n).
Proof.
  intros n u Hn. unfold rotate_normal_vector. cbv zeta. rewrite Hn.
  cbn [lit fin3 vx vy vz rx ry rz]. rewrite radians_zero.
  cbn [fcos fsin fopp fold_left]. rewrite cos_0, sin_0.
  change (Vec (Fin (rx u)) (Fin (ry u)) (Fin (rz u))) with (fin3 u).
  change (Vec (Fin 0) (Fin 1) (Fin (- 0))) with (fin3 (V3 0 1 (- 0))).
  change (Vec (Fin (- 0)) (Fin 0) (Fin 1)) with (fin3 (V3 (- 0) 0 1)).
  change (Vec (Fin 1) (Fin (- 0)) (Fin 0)) with (fin3 (V3 1 (- 0) 0)).
  change (Vec (Fin 1) (Fin 0) (Fin 0)) with (fin3 (V3 1 0 0)).
  change (Vec (Fin 0) (Fin 1) (Fin 0)) with (fin3 (V3 0 1 0)).
  change (Vec (Fin 0) (Fin 0) (Fin 1)) with (fin3 (V3 0 0 1)).
  rewrite matvec_fin.
  assert (E1 : V3 (rdot (V3 1 0 0) u) (rdot (V3 0 1 (- 0)) u)
                  (rdot (V3 0 0 1) u) = u)
    by (destruct u; r3_eq; ring).
  rewrite E1, matvec_fin.
  assert (E2 : V3 (rdot (V3 1 0 0) u) (rdot (V3 0 1 0) u)
                  (rdot (V3 (- 0) 0 1) u) = u)
    by (destruct u; r3_eq; ring).
  rewrite E2, matvec_fin.
  assert (E3 : V3 (rdot (V3 1 (- 0) 0) u) (rdot (V3 0 1 0) u)
                  (rdot (V3 0 0 1) u) = u)
    by (destruct u; r3_eq; ring).
  rewrite E3. reflexivity.
Qed.

Lemma rotate_normal_vector_zero_angles_witness :
  rotate_normal_vector (lit 0 1 (-1)) (lit 0 0 0)
  = vdiv (lit 0 1 (-1)) (norm (lit 0 1 (-1))).
Proof.
  assert (Hn : V3 0 1 (-1) <> zero3) by r3_discr.
  exact (rotate_normal_vector_zero_angles (lit 0 1 (-1)) _
           (normalize_fin3 _ Hn)).
Defined.

(** * The sweep of the test script *)

Lemma linspace_length start stop num : length (linspace start stop num) = num.
Proof.
  destruct num as [| [| m]]; [reflexivity | reflexivity |].
  unfold linspace. rewrite length_app, length_map, length_seq. simpl.
  rewrite Nat.add_comm. reflexivity.
Qed.

(** One sample always returns: the ray is bound before [trace]. *)
Lemma sample_returns i j : exists p, sample i j = Returned p.
Proof.
  unfold sample, Ray.__init__, MultiAxisGalvanometer.bind,
    MultiAxisGalvanometer.set_ray, MultiAxisGalvanometer.__init__.
  cbv zeta. cbn [focus_distance galvo_gap]. rewrite trace_bound. cbv zeta.
  eexists. reflexivity.
Qed.

Lemma inner_loop_spec i valuey acc :
  exists l,
    inner_loop i valuey acc = Returned (acc ++ l) /\
    length l = length valuey /\
    (forall p, In p l <-> exists j, In j valuey /\ sample i j = Returned p).
Proof.
  revert acc. induction valuey as [| j rest IH]; intros acc.
  - exists []. simpl. rewrite app_nil_r. repeat split; try tauto.
    intros [j [[] _]].
  - simpl. destruct (sample_returns i j) as [p Hp]. rewrite Hp.
    destruct (IH (acc ++ [p])) as (l & Hl & Hlen & Hin).
    exists (p :: l). rewrite Hl, <- app_assoc. simpl.
    split; [reflexivity |]. split; [congruence |].
    intros q. split.
    + intros [<- | Hq]; [exists j; auto |].
      apply Hin in Hq. destruct Hq as (j' & Hj' & Hs). exists j'. auto.
    + intros (j' & [<- | Hj'] & Hs).
      * left. congruence.
      * right. apply Hin. exists j'. auto.
Qed.

Lemma outer_loop_spec valuex valuey acc :
  exists l,
    outer_loop valuex valuey acc = Returned (acc ++ l) /\
    length l = (length valuex * length valuey)%nat /\
    (forall p, In p l <->
       exists i j, In i valuex /\ In j valuey /\ sample i j = Returned p).
Proof.
  revert acc. induction valuex as [| i rest IH]; intros acc.
  - exists []. simpl. rewrite app_nil_r. repeat split; try tauto.
    intros (i & j & [] & _).
  - simpl. destruct (inner_loop_spec i valuey acc) as (l1 & H1 & Hlen1 & Hin1).
    rewrite H1. destruct (IH (acc ++ l1)) as (l2 & H2 & Hlen2 & Hin2).
    exists (l1 ++ l2). rewrite H2, <- app_assoc.
    split; [reflexivity |]. split; [rewrite length_app; congruence |].
    intros q. rewrite in_app_iff, Hin1, Hin2. split.
    + intros [(j & Hj & Hs) | (i' & j & Hi' & Hj & Hs)].
      * exists i, j. auto.
      * exists i', j. auto.
    + intros (i' & j & [<- | Hi'] & Hj & Hs).
      * left. exists j. auto.
      * right. exists i', j. auto.
Qed.

Lemma subtract_reference_spec A l :
  (In None l /\ subtract_reference A l = Failed TypeError) \/
  (~ In None l /\
   exists rows, subtract_reference A l = Done rows /\ length rows = length l).
Proof.
  induction l as [| [q |] rest IH].
  - right. split; [intros [] |]. exists []. split; reflexivity.
  - simpl. destruct IH as [[Hin ->] | [Hnot (rows & -> & Hlen)]].
    + left. split; [right; assumption | reflexivity].
    + right. split; [intros [E | Hin]; [discriminate | contradiction] |].
      exists (vsub q A :: rows). simpl. split; congruence.
  - left. split; [left; reflexivity | reflexivity].
Qed.

(** X20.  [test(num)] does not skip a sample without intersection: it
    raises [TypeError], before any row is written, exactly when [trace]
    returns [None] for some pair of angles of the grid. *)
Theorem test_fails_on_missing_point :
  forall num : nat,
    test num = Failed TypeError <->
    exists i j,
      In i (linspace (Fin (-11)) (Fin 11) num) /\
      In j (linspace (Fin (-11)) (Fin 11) num) /\
      sample i j = Returned None.
Proof.
  intros num. unfold test. cbv zeta.
  destruct (outer_loop_spec (linspace (Fin (-11)) (Fin 11) num)
              (linspace (Fin (-11)) (Fin 11) num) [])
    as (l & -> & _ & Hin).
  simpl app. rewrite <- Hin.
  destruct (subtract_reference_spec (Vec (Fin (261 / 20)) (Fin 180) (Fin 5)) l)
    as [[Hnone ->] | [Hnot (rows & -> & _)]].
  - split; auto.
  - split; [discriminate | contradiction].
Qed.

Lemma inner_loop_grid i valuey acc :
  exists l,
    inner_loop i valuey acc = Returned (acc ++ l) /\
    Forall2 (fun ij p => sample (fst ij) (snd ij) = Returned p)
            (map (pair i) valuey) l.
Proof.
  revert acc. induction valuey as [| j rest IH]; intros acc.
  - exists []. simpl. rewrite app_nil_r. split; [reflexivity | constructor].
  - simpl. destruct (sample_returns i j) as [p Hp]. rewrite Hp.
    destruct (IH (acc ++ [p])) as (l & Hl & Hg).
    exists (p :: l). rewrite Hl, <- app_assoc.
    split; [reflexivity |]. constructor; assumption.
Qed.

Lemma outer_loop_grid valuex valuey acc :
  exists l,
    outer_loop valuex valuey acc = Returned (acc ++ l) /\
    Forall2 (fun ij p => sample (fst ij) (snd ij) = Returned p)
            (list_prod valuex valuey) l.
Proof.
  revert acc. induction valuex as [| i rest IH]; intros acc.
  - exists []. simpl. rewrite app_nil_r. split; [reflexivity | constructor].
  - simpl. destruct (inner_loop_grid i valuey acc) as (l1 & H1 & Hg1).
    rewrite H1. destruct (IH (acc ++ l1)) as (l2 & H2 & Hg2).
    exists (l1 ++ l2). rewrite H2, <- app_assoc.
    split; [reflexivity |]. apply Forall2_app; assumption.
Qed.

Lemma subtract_reference_rows A l rows :
  subtract_reference A l = Done rows ->
  Forall2 (fun p row => exists point, p = Some point /\ row = vsub point A)
          l rows.
Proof.
  revert rows. induction l as [| [q |] rest IH]; intros rows H; simpl in H.
  - injection H as <-. constructor.
  - destruct (subtract_reference A rest) as [rs | e]; [| discriminate].
    injection H as <-. constructor; [exists q; auto | apply IH; reflexivity].
  - discriminate.
Qed.

Lemma Forall2_chain {A B C} (R1 : A -> B -> Prop) (R2 : B -> C -> Prop)
      (R : A -> C -> Prop) l1 l2 l3 :
  (forall a b c, R1 a b -> R2 b c -> R a c) ->
  Forall2 R1 l1 l2 -> Forall2 R2 l2 l3 -> Forall2 R l1 l3.
Proof.
  intros HR H1. revert l3. induction H1; intros l3 H2; inversion H2; subst;
    constructor; eauto.
Qed.

(** X19.  [test(num)] never raises [AttributeError].  It either raises the
    [TypeError] of [None - A], or computes exactly num * num rows, one per
    pair of grid angles in the order of the loops (X outer, Y inner), each
    the point that [trace] returned for the pair minus
    (galvo_gap, 180, 5). *)
Theorem test_rows_in_grid_order :
  forall num : nat,
    test num = Failed TypeError \/
    exists realresult,
      test num = Done realresult /\
      length realresult = (num * num)%nat /\
      Forall2
        (fun ij row =>
           exists point,
             sample (fst ij) (snd ij) = Returned (Some point) /\
             row = vsub point (Vec (Fin (261 / 20)) (Fin 180) (Fin 5)))
        (list_prod (linspace (Fin (-11)) (Fin 11) num)
                   (linspace (Fin (-11)) (Fin 11) num))
        realresult.
Proof.
  intros num. unfold test. cbv zeta.
  destruct (outer_loop_grid (linspace (Fin (-11)) (Fin 11) num)
              (linspace (Fin (-11)) (Fin 11) num) [])
    as (l & -> & Hg).
  simpl app.
  destruct (subtract_reference (Vec (Fin (261 / 20)) (Fin 180) (Fin 5)) l)
    as [rows | e] eqn:E.
  - right. exists rows. split; [reflexivity |].
    pose proof (subtract_reference_rows _ _ _ E) as Hr.
    assert (Hall : Forall2
        (fun ij row =>
           exists point,
             sample (fst ij) (snd ij) = Returned (Some point) /\
             row = vsub point (Vec (Fin (261 / 20)) (Fin 180) (Fin 5)))
        (list_prod (linspace (Fin (-11)) (Fin 11) num)
                   (linspace (Fin (-11)) (Fin 11) num)) rows).
    { refine (Forall2_chain _ _ _ _ _ _ _ Hg Hr).
      intros ij p row H1 (point & -> & ->). exists point. auto. }
    split; [| exact Hall].
    apply Forall2_length in Hall.
    rewrite length_prod, !linspace_length in Hall. congruence.
  - left. destruct (subtract_reference_spec
                      (Vec (Fin (261 / 20)) (Fin 180) (Fin 5)) l)
      as [[_ H] | [_ (rows & H & _)]]; congruence.
Qed.
